(** * Shallow-copy generator (gen.go): eligibility classifier and emitter

    A shallow embedding of [gen.go].  The generator is written against four
    libraries (go/ast, go/types, controller-tools and jennifer); what it reads
    from them is collected in interfaces ([GoTypes], [Toolchain]) so that the
    functions of [gen.go] can be transcribed statement by statement and
    proved correct for every implementation of these interfaces. *)

From Stdlib Require Import String Ascii List Arith Lia Bool.
From stdpp Require Import base option list strings gmap sorting.

Local Open Scope string_scope.
Local Open Scope list_scope.

(** ** go/ast *)

Module ast.
(** [*ast.Ident]: an identifier and where it stands. *)
Record Ident := { IdentName : string; NamePos : nat }.

(** [*ast.TypeSpec], as far as the generator reads it.  [Pos()] of a type
    spec is the position of its name. *)
Record TypeSpec := { Name : Ident }.

Definition Pos (spec : TypeSpec) : nat := NamePos (Name spec).
End ast.

(** ** go/types *)

Module types.
(** [*types.Var]: a struct field (or a tuple entry). *)
Record Var := { VarName : string }.

(** [*types.Tuple]. *)
Definition Tuple := list Var.

(** The dynamic type behind a [types.Type] interface value, with the data
    the generator reads after a type assertion.  A nil [*types.Tuple] is
    [None]. *)
Inductive View :=
| Named
| Pointer
| Struct (fields : list Var)
| Basic
| Signature (params results : option Tuple)
| Other.

(** [Tuple.Len], which accepts a nil receiver. *)
Definition Len (t : option Tuple) : nat :=
  match t with Some vars => List.length vars | None => 0 end.

(** [Struct.NumFields] and [Struct.Field(i).Name()]. *)
Definition NumFields (fields : list Var) : nat := List.length fields.
Definition FieldName (fields : list Var) (i : nat) : string :=
  match fields !! i with Some v => VarName v | None => "" end.
End types.

(** What the generator asks of go/types and go/ast.  [Ty] is the set of
    [types.Type] interface values; Go compares them by identity, which is
    [=] here.  [Underlying] is left arbitrary: nothing is assumed about
    the length or the convergence of alias chains. *)
Class GoTypes := {
  Ty : Type;
  Ty_eq_dec :: EqDecision Ty;
  view : Ty -> types.View;
  Underlying : Ty -> Ty;
  (** [Pointer.Elem], the pointee of a pointer type.  The generator never
      calls it; it is here to state what is said about pointees. *)
  Elem : Ty -> Ty;
  (** [types.Typ[types.Invalid]] *)
  Typ_Invalid : Ty;
  (** ... which is a basic type. *)
  Typ_Invalid_Basic : view Typ_Invalid = types.Basic;
  (** [types.LookupFieldOrMethod(T, true, pkg.Types, name)]: the type of
      the object found ([None] for a nil object) and the index sequence. *)
  LookupFieldOrMethod : Ty -> string -> option Ty * list nat;
  (** [ast.IsExported] *)
  IsExported : string -> bool
}.

(** ** controller-tools: markers and loader *)

Module markers.
(** A marker value is an [interface{}]; only its being a [bool] matters. *)
Inductive Value :=
| BoolValue (b : bool)
| OtherValue (repr : string).

(** [MarkerValues] is a [map[string][]interface{}]; [Get] returns the
    first value recorded under the name, or nil. *)
Definition Get (values : gmap string (list Value)) (name : string) : option Value :=
  match values !! name with
  | Some (v :: _) => Some v
  | _ => None
  end.

(** [*markers.TypeInfo] *)
Record TypeInfo := {
  Name : string;
  Markers : gmap string (list Value);
  RawSpec : ast.TypeSpec
}.
End markers.

Module loader.
(** Go [error] values.  [ErrFromNode] attaches a position to an error and
    keeps its message.  [ErrList] is an error that is a list of errors (a
    [loader.ErrList], a [scanner.ErrorList]), with the message of the list
    as a whole. *)
#[warnings="-register-all"]
Inductive error :=
| Errorf (msg : string)
| ErrFromNode (err : error) (pos : nat)
| ErrShortWrite
| ErrList (msg : string) (errs : list error).

Fixpoint Error (e : error) : string :=
  match e with
  | Errorf msg => msg
  | ErrFromNode err _ => Error err
  | ErrShortWrite => "short write"
  | ErrList msg _ => msg
  end.

(** What [Package.AddError] appends for an error: one entry, or for a list
    the entries of its elements. *)
Fixpoint flatten (e : error) : list error :=
  match e with
  | ErrList _ errs =>
    (fix each (errs : list error) : list error :=
       match errs with
       | [] => []
       | e :: errs => flatten e ++ each errs
       end) errs
  | e => [e]
  end.

(** [*loader.Package]: identity, package name, the type checker's answers
    for identifiers ([TypesInfo.TypeOf], nil when it has none), what
    [markers.EachType] visits (the collector's error, or the type
    declarations in source order) and the errors that type-checking the
    package reports when [Generate] comes to it, each with the ID of the
    package it is added to (the package itself or one it imports). *)
Record Package `{GoTypes} := {
  ID : string;
  Name : string;
  TypeOf : ast.Ident -> option Ty;
  EachType : error + list markers.TypeInfo;
  Checked : list (string * error)
}.
End loader.

(** ** jennifer and the output side *)

Module jen.
(** The statements the generator builds: [Id(name)] and
    [Id(name).Dot(field)]. *)
Inductive Code :=
| Id (name : string)
| Dot (c : Code) (name : string).

(** The text of a statement; an [Id] prints as the identifier. *)
Fixpoint render (c : Code) : string :=
  match c with
  | Id name => name
  | Dot c name => render c ++ "." ++ name
  end.

(** [jen.Dict] is a [map[Code]Code].  Its keys are statement pointers,
    fresh for every call of [jen.Id], so each assignment [d[k] = v] adds
    an entry.  The list holds the entries in insertion order; ranging
    over the map visits them in an order of Go's choosing. *)
Definition Dict := list (Code * Code).

(** [DictFunc(f)]: an empty map handed to [f]. *)
Definition DictFunc (f : Dict -> Dict) : Dict := f [].

(** [sort.Strings] orders by Go's [<] on strings: bytewise. *)
Definition string_le (a b : string) : Prop := String.leb a b = true.
Global Instance string_le_dec a b : Decision (string_le a b).
Proof. unfold string_le. apply _. Defined.

(** [Dict.render]: in the order [visit] in which the map is ranged over,
    the keys' texts are collected and each text is mapped to its entry
    (a later entry replaces an earlier one with the same text); the texts
    are sorted with [sort.Strings]; the entries are then printed in the
    order of the sorted texts (jennifer documents it: the items are
    ordered by key when rendered, to ensure repeatable code).  The result
    is the sequence of entries printed. *)
Definition Dict_render (visit : Dict) : Dict :=
  let '(keys, lookup) :=
    fold_left (fun '(keys, lookup) kv =>
                 (keys ++ [render kv.1], <[render kv.1 := kv]> lookup))
              visit ([], (∅ : gmap string (Code * Code))) in
  let keys := merge_sort string_le keys in
  omap (fun key => lookup !! key) keys.

(** One [code.Func()...] statement, by the parts the generator supplies. *)
Record FuncDecl := {
  Receiver : Code * Code;
  FuncName : Code;
  FuncParams : list Code;
  FuncResults : list Code;
  ReturnType : Code;
  ReturnValues : Dict
}.

(** [*jen.File]: [NewFile(name)] and the statements added to it. *)
Record File := {
  PackageName : string;
  Decls : list FuncDecl
}.

Definition NewFile (name : string) : File := {| PackageName := name; Decls := [] |}.
Definition Add (f : File) (d : FuncDecl) : File :=
  {| PackageName := PackageName f; Decls := Decls f ++ [d] |}.
End jen.

(** What the generator asks of jennifer's printer, go/format and the output
    sink of the generation context. *)
Class Toolchain := {
  (** The printer inside [File.Render]: the unformatted text of a file
      whose literals list their entries in the order in which they are
      printed, or the error of a statement that cannot be printed. *)
  jen_source : jen.File -> loader.error + string;
  (** [format.Source] *)
  format_Source : string -> loader.error + string;
  (** [ctx.Open(root, name)] for the package with the given ID: the error,
      if any. *)
  ctx_Open : string -> string -> option loader.error;
  (** [outputFile.Write(bytes)]: the number of bytes accepted and the error,
      if any. *)
  outputFile_Write : string -> string -> string -> nat * option loader.error
}.

Definition newline : string := String (ascii_of_nat 10) EmptyString.

(** [File.Render] once the entries are in print order: jennifer prints the
    file and formats the text with [format.Source] itself; when that fails
    it returns an error made of the formatter's message and the whole
    unformatted text. *)
Definition jen_print `{Toolchain} (f : jen.File) : loader.error + string :=
  match jen_source f with
  | inl err => inl err
  | inr source =>
    match format_Source source with
    | inl err =>
      inl (loader.Errorf
             ("Error " ++ loader.Error err ++ " while formatting source:"
              ++ newline ++ source))
    | inr output => inr output
    end
  end.

(** ** Program state and control *)

(** Calls to the collaborators whose order the specification talks about. *)
Inductive Call :=
| CallMarkersGet (typeName markerName : string)
| CallIsExported (typeName : string)
| CallTypeOf (typeName : string).

(** The mutable state the generator touches: the errors added to each
    package ([AddError]), the files handed to the output sink (package,
    file name, bytes accepted), and the log of collaborator calls. *)
Record State := {
  Errors : list (string * loader.error);
  Files : list (string * string * string);
  Calls : list Call
}.

Definition emptyState : State := {| Errors := []; Files := []; Calls := [] |}.

(** A call either returns, panics (a failed type assertion or a nil
    dereference) or, for the alias walk, has not finished within the fuel. *)
Inductive Outcome (A : Type) :=
| Returns (a : A) (s : State)
| Panics (msg : string)
| OutOfFuel.
Arguments Returns {A} a s.
Arguments Panics {A} msg.
Arguments OutOfFuel {A}.

Definition M (A : Type) : Type := State -> Outcome A.

Global Instance M_ret : MRet M := fun A a s => Returns a s.
Global Instance M_bind : MBind M := fun A B f m s =>
  match m s with
  | Returns a s' => f a s'
  | Panics msg => Panics msg
  | OutOfFuel => OutOfFuel
  end.

Definition panic {A} (msg : string) : M A := fun _ => Panics msg.
Definition outOfFuel {A} : M A := fun _ => OutOfFuel.

Definition logCall (c : Call) : M unit := fun s =>
  Returns tt {| Errors := Errors s; Files := Files s; Calls := Calls s ++ [c] |}.

(** [pkg.AddError(err)]: a list of errors is added element by element. *)
Definition AddError `{GoTypes} (pkg : loader.Package) (err : loader.error) : M unit := fun s =>
  Returns tt {| Errors := Errors s ++ map (fun e => (loader.ID pkg, e)) (loader.flatten err);
                Files := Files s; Calls := Calls s |}.

(** [ctx.Checker.Check(root, ...)] and [root.NeedTypesInfo()]: the type
    checker adds the errors it finds.  The node filter handed to [Check]
    (interface types are skipped) decides what is checked; the outcome of
    the check is what [root] holds. *)
Definition typeCheck `{GoTypes} (root : loader.Package) : M unit := fun s =>
  Returns tt {| Errors := Errors s ++ loader.Checked root;
                Files := Files s; Calls := Calls s |}.

(** Pure code that can panic. *)
Inductive Result (A : Type) :=
| Ok (a : A)
| Panic (msg : string).
Arguments Ok {A} a.
Arguments Panic {A} msg.

Definition lift {A} (r : Result A) : M A :=
  match r with Ok a => mret a | Panic msg => panic msg end.

(** ** gen.go *)

Section Generator.
Context `{GoTypes} `{Toolchain}.

(** [enableTypeMarker.Name] *)
Definition enableTypeMarker_Name : string := "shallowcopy:generate".

Record copyStructs := {
  StructName : string;
  Fields : list string
}.

Definition Markers_Get (info : markers.TypeInfo) (name : string) : M (option markers.Value) :=
  _ ← logCall (CallMarkersGet (markers.Name info) name);
  mret (markers.Get (markers.Markers info) name).

Definition ast_IsExported (name : string) : M bool :=
  _ ← logCall (CallIsExported name);
  mret (IsExported name).

Definition TypesInfo_TypeOf (pkg : loader.Package) (id : ast.Ident) : M (option Ty) :=
  _ ← logCall (CallTypeOf (ast.IdentName id));
  mret (loader.TypeOf pkg id).

Definition enabledOnType (info : markers.TypeInfo) : M bool :=
  typeMarker ← Markers_Get info enableTypeMarker_Name;
  match typeMarker with
  | Some (markers.BoolValue b) => mret b
  | Some (markers.OtherValue _) => panic "interface conversion: interface {} is not bool"
  | None => mret false
  end.

Definition isNamed (t : Ty) : bool :=
  match view t with types.Named => true | _ => false end.
Definition isPointer (t : Ty) : bool :=
  match view t with types.Pointer => true | _ => false end.
Definition isBasic (t : Ty) : bool :=
  match view t with types.Basic => true | _ => false end.
Definition isStruct (t : Ty) : bool :=
  match view t with types.Struct _ => true | _ => false end.

(** hasShallowCopyMethod checks if this type has a manual ShallowCopy method. *)
Definition hasShallowCopyMethod (typeInfo : Ty) : Result bool :=
  let '(shallowCopyMethod, ind) := LookupFieldOrMethod typeInfo "ShallowCopy" in
  if negb (Nat.eqb (List.length ind) 1) then Ok false (* ignore embedded methods *)
  else match shallowCopyMethod with
  | None => Ok false
  | Some methodType =>
    match view methodType with
    | types.Signature params results =>
      if bool_decide (params <> None) && negb (Nat.eqb (types.Len params) 0) then Ok false
      else if bool_decide (results = None) || negb (Nat.eqb (types.Len results) 1) then Ok false
      else Ok true
    | _ => Panic "interface conversion: types.Type is not *types.Signature"
    end
  end.

(** How the [for] loop of [shouldBeCopied] is left. *)
Inductive LoopExit :=
| ReturnTrue
| Done (lastType : Ty).

(** The loop
    [for underlyingType := typeInfo.Underlying(); underlyingType != lastType;
         lastType, underlyingType = underlyingType, underlyingType.Underlying()]. *)
Fixpoint aliasWalk (fuel : nat) (lastType underlyingType : Ty) : M LoopExit :=
  if decide (underlyingType = lastType) then mret (Done lastType)
  else match fuel with
  | 0 => outOfFuel
  | S fuel' =>
    manual ← lift (hasShallowCopyMethod underlyingType);
    if manual : bool then mret ReturnTrue
    else if negb (isBasic underlyingType) then mret ReturnTrue
    else aliasWalk fuel' underlyingType (Underlying underlyingType)
  end.

(** shouldBeCopied checks if we're supposed to make shallowcopy methods on
    the given type. *)
Definition shouldBeCopied (fuel : nat) (pkg : loader.Package) (info : markers.TypeInfo) : M bool :=
  exported ← ast_IsExported (markers.Name info);
  if negb exported then mret false else
  typeInfo ← TypesInfo_TypeOf pkg (ast.Name (markers.RawSpec info));
  if decide (typeInfo = Some Typ_Invalid) then
    _ ← AddError pkg (loader.ErrFromNode
           (loader.Errorf ("unknown type " ++ markers.Name info))
           (ast.Pos (markers.RawSpec info)));
    mret false
  else
  named ← match typeInfo with
          | Some t =>
            if isNamed t then mret t
            else panic "interface conversion: types.Type is not *types.Named"
          | None => panic "interface conversion: interface is nil, not *types.Named"
          end;
  let typeInfo := if isPointer (Underlying named) then Underlying named else named in
  let lastType := typeInfo in
  exit ← (if isNamed typeInfo then
            manual ← lift (hasShallowCopyMethod typeInfo);
            if manual : bool then mret ReturnTrue
            else aliasWalk fuel lastType (Underlying typeInfo)
          else mret (Done lastType));
  match exit with
  | ReturnTrue => mret true
  | Done lastType => mret (isStruct lastType)
  end.
(** The loop [for i := 0; i < stype.NumFields(); i++] that appends
    [stype.Field(i).Name()] to [data.Fields]. *)
Definition fieldNames (stype : list types.Var) : list string :=
  fold_left (fun fields i => fields ++ [types.FieldName stype i])
            (seq 0 (types.NumFields stype)) [].

(** The callback handed to [markers.EachType]; [structs] is the slice it
    appends to. *)
Definition eachType (fuel : nat) (root : loader.Package)
    (structs : list copyStructs) (info : markers.TypeInfo) : M (list copyStructs) :=
  (* copy when enabled specifically on this type *)
  enabled ← enabledOnType info;
  if negb enabled then mret structs else
  (* avoid copying non-exported types, etc *)
  copied ← shouldBeCopied fuel root info;
  if negb copied then mret structs else
  typeInfo ← TypesInfo_TypeOf root (ast.Name (markers.RawSpec info));
  _ ← (if decide (typeInfo = Some Typ_Invalid) then
         AddError root (loader.ErrFromNode
           (loader.Errorf ("unknown type " ++ markers.Name info))
           (ast.Pos (markers.RawSpec info)))
       else mret tt);
  match typeInfo with
  | None => panic "invalid memory address or nil pointer dereference"
  | Some typeInfo =>
    match view (Underlying typeInfo) with
    | types.Struct stype =>
      let data := {| StructName := markers.Name info; Fields := fieldNames stype |} in
      mret (structs ++ [data])
    | _ =>
      _ ← AddError root (loader.ErrFromNode
            (loader.Errorf (markers.Name info ++ " is not a struct type"))
            (ast.Pos (markers.RawSpec info)));
      mret structs
    end
  end.

(** [markers.EachType] calling back for each declaration in turn. *)
Fixpoint eachTypes (fuel : nat) (root : loader.Package)
    (structs : list copyStructs) (infos : list markers.TypeInfo) : M (list copyStructs) :=
  match infos with
  | [] => mret structs
  | info :: infos =>
    structs ← eachType fuel root structs info;
    eachTypes fuel root structs infos
  end.

(** The function given to [jen.DictFunc]:
    [for _, field := range s.Fields { d[jen.Id(field)] = jen.Id("o").Dot(field) }]. *)
Definition fillDict (s : copyStructs) (d : jen.Dict) : jen.Dict :=
  fold_left (fun d field => d ++ [(jen.Id field, jen.Dot (jen.Id "o") field)])
            (Fields s) d.

(** The statement [code.Func().Params(...).Id("ShallowCopy")...] for one
    struct. *)
Definition shallowCopyFunc (s : copyStructs) : jen.FuncDecl :=
  {| jen.Receiver := (jen.Id "o", jen.Id (StructName s));
     jen.FuncName := jen.Id "ShallowCopy";
     jen.FuncParams := [];
     jen.FuncResults := [jen.Id (StructName s)];
     jen.ReturnType := jen.Id (StructName s);
     jen.ReturnValues := jen.DictFunc (fillDict s) |}.

(** [code := jen.NewFile(root.Name)] followed by the loop over [structs]. *)
Definition buildFile (name : string) (structs : list copyStructs) : jen.File :=
  fold_left (fun code s => jen.Add code (shallowCopyFunc s)) structs (jen.NewFile name).

(** [code.Render(&b)].  [visit i d] is the order in which the map of the
    [i]-th literal is ranged over when it is printed. *)
Definition Render (visit : nat -> jen.Dict -> jen.Dict) (code : jen.File) : loader.error + string :=
  jen_print
    {| jen.PackageName := jen.PackageName code;
       jen.Decls :=
         imap (fun i d =>
                 {| jen.Receiver := jen.Receiver d;
                    jen.FuncName := jen.FuncName d;
                    jen.FuncParams := jen.FuncParams d;
                    jen.FuncResults := jen.FuncResults d;
                    jen.ReturnType := jen.ReturnType d;
                    jen.ReturnValues := jen.Dict_render (visit i (jen.ReturnValues d)) |})
              (jen.Decls code) |}.

(** The sink accepts the first [n] bytes. *)
Definition accept (root : loader.Package) (name bytes : string) (n : nat) : M unit := fun s =>
  Returns tt {| Errors := Errors s;
                Files := Files s ++ [(loader.ID root, name, String.substring 0 n bytes)];
                Calls := Calls s |}.

Definition writeOut (root : loader.Package) (outBytes : string) : M unit :=
  match ctx_Open (loader.ID root) "zz_generated.shallowcopy.go" with
  | Some err => AddError root err
  | None =>
    let '(n, err) := outputFile_Write (loader.ID root) "zz_generated.shallowcopy.go" outBytes in
    _ ← accept root "zz_generated.shallowcopy.go" outBytes n;
    match err with
    | Some err => AddError root err
    | None =>
      if Nat.ltb n (String.length outBytes) then AddError root loader.ErrShortWrite
      else mret tt
    end
  end.

(** The block [if len(structs) > 0 { ... }] of [Generate]: build the file,
    render it, format it, write it.  [false] stands for the [return nil]
    that leaves [Generate]; [true] for going on with the next root. *)
Definition emitFile (visit : nat -> jen.Dict -> jen.Dict) (root : loader.Package)
    (structs : list copyStructs) : M bool :=
  if Nat.ltb 0 (List.length structs) then
    let code := buildFile (loader.Name root) structs in
    match Render visit code with
    | inl err => _ ← AddError root err; mret false
    | inr b =>
      match format_Source b with
      | inl err => _ ← AddError root err; mret false
      | inr outContents => _ ← writeOut root outContents; mret true
      end
    end
  else mret true.

(** The body of the loop of [Generate] for one root. *)
Definition generateRoot (fuel : nat) (visit : nat -> jen.Dict -> jen.Dict)
    (root : loader.Package) : M bool :=
  _ ← typeCheck root;
  match loader.EachType root with
  | inl err => _ ← AddError root err; mret false
  | inr infos =>
    structs ← eachTypes fuel root [] infos;
    emitFile visit root structs
  end.

(** [Generator.Generate]: [visit] gives, per package ID, the orders in which
    maps are ranged over.  The error returned is always nil. *)
Fixpoint Generate (fuel : nat) (visit : string -> nat -> jen.Dict -> jen.Dict)
    (roots : list loader.Package) : M (option loader.error) :=
  match roots with
  | [] => mret None
  | root :: roots =>
    continue ← generateRoot fuel (visit (loader.ID root)) root;
    if continue : bool then Generate fuel visit roots else mret None
  end.
End Generator.

(** ** Vocabulary of the specification *)

Section Vocabulary.
Context `{GoTypes}.

(** The type reached from [t] by [n] underlying-type links. *)
Definition chain (n : nat) (t : Ty) : Ty := Nat.iter n Underlying t.

(** [t] exposes, at index depth one, a member named ShallowCopy that is a
    function with no parameter and exactly one result. *)
Definition DeclaresShallowCopy (t : Ty) : Prop :=
  exists sig i params result,
    LookupFieldOrMethod t "ShallowCopy" = (Some sig, [i]) /\
    view sig = types.Signature params (Some [result]) /\
    types.Len params = 0.

(** The lookup of ShallowCopy on [t] finds nothing. *)
Definition NoShallowCopy (t : Ty) : Prop :=
  (LookupFieldOrMethod t "ShallowCopy").1 = None.

(** The value a call returns, if it returns. *)
Definition result {A} (o : Outcome A) : option A :=
  match o with Returns a _ => Some a | _ => None end.

(** The state in which a call returns, if it returns. *)
Definition final {A} (o : Outcome A) : option State :=
  match o with Returns _ s => Some s | _ => None end.

(** The state [s] after the calls [cs] have been logged. *)
Definition logged (s : State) (cs : list Call) : State :=
  {| Errors := Errors s; Files := Files s; Calls := Calls s ++ cs |}.
End Vocabulary.

Global Arguments chain : simpl never.

(** The entry the generator puts into the literal for a field. *)
Definition entry (field : string) : jen.Code * jen.Code :=
  (jen.Id field, jen.Dot (jen.Id "o") field).

(** The keys of a literal, in the order of its entries. *)
Definition literalKeys (d : jen.Dict) : list string :=
  map (fun kv => jen.render kv.1) d.

(** The statement for a struct as the printer receives it. *)
Definition printedFunc (s : copyStructs) : jen.FuncDecl :=
  {| jen.Receiver := (jen.Id "o", jen.Id (StructName s));
     jen.FuncName := jen.Id "ShallowCopy";
     jen.FuncParams := [];
     jen.FuncResults := [jen.Id (StructName s)];
     jen.ReturnType := jen.Id (StructName s);
     jen.ReturnValues := map entry (merge_sort jen.string_le (Fields s)) |}.

(** [s'] is [s] with more at the end: errors, each of which satisfies
    [owned]; files, each named as the generator names its output, whose
    package IDs are, in order, some of [ids], each place of [ids] used at
    most once; and calls. *)
Definition grows (owned : string * loader.error -> Prop) (ids : list string)
    (s s' : State) : Prop :=
  exists es fs cs,
    Errors s' = Errors s ++ es /\ Files s' = Files s ++ fs /\
    Calls s' = Calls s ++ cs /\
    Forall owned es /\
    Forall (fun f => f.1.2 = "zz_generated.shallowcopy.go") fs /\
    sublist (map (fun f => f.1.1) fs) ids.

Global Instance Call_eq_dec : EqDecision Call.
Proof. solve_decision. Defined.

(** The position of the first occurrence of a call in a log. *)
Fixpoint callIndex (c : Call) (calls : list Call) : option nat :=
  match calls with
  | [] => None
  | c' :: calls => if decide (c' = c) then Some 0 else S <$> callIndex c calls
  end.

(** [needle] occurs in [text]. *)
Definition contains (needle text : string) : bool :=
  match String.index 0 needle text with Some _ => true | None => false end.

(** ** A sample package

    The package below is used to run the generator on concrete input:
<<
    package example

    type User struct { ID int; Name string }         // generate=true
    type UserRef *User                                // generate=true
    type Celsius int                                  // generate=true
    func (c Celsius) ShallowCopy() Celsius
    type Count int                                    // generate=true
    type Conn struct{}                                // no marker
    type Handle struct { conn *Conn }                 // generate=true
    func (h Handle) ShallowCopy() Handle
    type HandleRef *Handle                            // generate=true
    type Account struct { Name string; ID int }       // generate=true
    type session struct { ID int; Name string }       // generate=true
    type Plain struct { ID int; Name string }         // no marker
    type Off struct { ID int; Name string }           // generate=false
>>
*)

Module Example.
Inductive ty :=
| Invalid | Int
| UserStruct | User | UserPtr | UserRef
| Celsius | Count | CopySig
| HandleStruct | Handle | HandlePtr | HandleRef
| AccountStruct | Account
| Session | Plain | Off.

Global Instance ty_eq_dec : EqDecision ty.
Proof. solve_decision. Defined.

Definition view (t : ty) : types.View :=
  match t with
  | Invalid | Int => types.Basic
  | UserStruct => types.Struct [types.Build_Var "ID"; types.Build_Var "Name"]
  | HandleStruct => types.Struct [types.Build_Var "conn"]
  | AccountStruct => types.Struct [types.Build_Var "Name"; types.Build_Var "ID"]
  | UserPtr | HandlePtr => types.Pointer
  | CopySig => types.Signature None (Some [types.Build_Var ""])
  | User | UserRef | Celsius | Count | Handle | HandleRef | Account
  | Session | Plain | Off => types.Named
  end.

Definition Underlying (t : ty) : ty :=
  match t with
  | User | Session | Plain | Off => UserStruct
  | UserRef => UserPtr
  | Celsius | Count => Int
  | Handle => HandleStruct
  | HandleRef => HandlePtr
  | Account => AccountStruct
  | t => t
  end.

Definition Elem (t : ty) : ty :=
  match t with
  | UserPtr => User
  | HandlePtr => Handle
  | t => t
  end.

(** The methods of [Handle] are found through a pointer to it; a named
    pointer type has none. *)
Definition LookupFieldOrMethod (t : ty) (name : string) : option ty * list nat :=
  if String.eqb name "ShallowCopy" then
    match t with
    | Celsius | Handle | HandlePtr => (Some CopySig, [0])
    | _ => (None, [])
    end
  else (None, []).

(** [ast.IsExported] on names that start with an ASCII character. *)
Definition IsExported (name : string) : bool :=
  match name with
  | String c _ => Nat.leb 65 (nat_of_ascii c) && Nat.leb (nat_of_ascii c) 90
  | EmptyString => false
  end.

Definition goTypes : GoTypes :=
  Build_GoTypes ty ty_eq_dec view Underlying Elem Invalid eq_refl LookupFieldOrMethod IsExported.

Definition TypeOf (id : ast.Ident) : option ty :=
  let name := ast.IdentName id in
  if String.eqb name "User" then Some User
  else if String.eqb name "UserRef" then Some UserRef
  else if String.eqb name "Celsius" then Some Celsius
  else if String.eqb name "Count" then Some Count
  else if String.eqb name "Handle" then Some Handle
  else if String.eqb name "HandleRef" then Some HandleRef
  else if String.eqb name "Account" then Some Account
  else if String.eqb name "session" then Some Session
  else if String.eqb name "Plain" then Some Plain
  else if String.eqb name "Off" then Some Off
  else None.

Definition marked (b : bool) : gmap string (list markers.Value) :=
  {[ "shallowcopy:generate" := [markers.BoolValue b] ]}.

Definition decl (name : string) (pos : nat) (ms : gmap string (list markers.Value)) : markers.TypeInfo :=
  {| markers.Name := name; markers.Markers := ms;
     markers.RawSpec := {| ast.Name := {| ast.IdentName := name; ast.NamePos := pos |} |} |}.

Definition user := decl "User" 10 (marked true).
Definition userRef := decl "UserRef" 20 (marked true).
Definition celsius := decl "Celsius" 30 (marked true).
Definition count := decl "Count" 40 (marked true).
Definition handle := decl "Handle" 50 (marked true).
Definition handleRef := decl "HandleRef" 60 (marked true).
Definition account := decl "Account" 70 (marked true).
Definition session := decl "session" 80 (marked true).
Definition plain := decl "Plain" 90 ∅.
Definition off := decl "Off" 100 (marked false).

Definition pkg (infos : list markers.TypeInfo) : @loader.Package goTypes :=
  @loader.Build_Package goTypes "example.com/demo/example" "example" TypeOf (inr infos) [].

(** A printer that lays a method out as the specification's example does:
    [func (o User) ShallowCopy() User { return User{ID: o.ID, Name: o.Name} }]. *)
Definition printEntries (d : jen.Dict) : string :=
  String.concat ", " (map (fun kv => (jen.render kv.1 ++ ": " ++ jen.render kv.2)%string) d).

Definition printFunc (d : jen.FuncDecl) : string :=
  "func (" ++ jen.render (jen.Receiver d).1 ++ " " ++ jen.render (jen.Receiver d).2 ++ ") "
  ++ jen.render (jen.FuncName d) ++ "() "
  ++ String.concat ", " (map jen.render (jen.FuncResults d))
  ++ " { return " ++ jen.render (jen.ReturnType d)
  ++ "{" ++ printEntries (jen.ReturnValues d) ++ "} }".

Definition print (f : jen.File) : loader.error + string :=
  inr ("package " ++ jen.PackageName f ++ " " ++ String.concat " " (map printFunc (jen.Decls f)))%string.

(** A tool chain in which every step succeeds. *)
Definition toolchain : Toolchain :=
  {| jen_source := print;
     format_Source := fun src => inr src;
     ctx_Open := fun _ _ => None;
     outputFile_Write := fun _ _ bytes => (String.length bytes, None) |}.

(** A tool chain with a fault in the printer, which leaves the body of the
    last method open, and a formatter that insists on balanced braces. *)
Fixpoint occurrences (c : ascii) (text : string) : nat :=
  match text with
  | EmptyString => 0
  | String c' text => (if Ascii.eqb c c' then 1 else 0) + occurrences c text
  end.

Definition printOpen (f : jen.File) : loader.error + string :=
  match print f with
  | inr text => inr (String.substring 0 (String.length text - 1) text)
  | inl err => inl err
  end.

Definition unbalanced : loader.error := loader.Errorf "1:88: expected '}', found 'EOF'".

Definition balanced (src : string) : loader.error + string :=
  if Nat.eqb (occurrences "{" src) (occurrences "}" src) then inr src else inl unbalanced.

Definition faulty : Toolchain :=
  {| jen_source := printOpen;
     format_Source := balanced;
     ctx_Open := fun _ _ => None;
     outputFile_Write := fun _ _ bytes => (String.length bytes, None) |}.

(** Ranging over a map in insertion order, and in the reverse order. *)
Definition inOrder (i : nat) (d : jen.Dict) : jen.Dict := d.
Definition reversed (i : nat) (d : jen.Dict) : jen.Dict := rev d.
End Example.


(** ** A type universe whose alias chains do not converge

    Two basic types, each reporting the other as its underlying type. *)

Module Cyclic.
Inductive ty := Invalid | Named | Ping | Pong.

Global Instance ty_eq_dec : EqDecision ty.
Proof. solve_decision. Defined.

Definition view (t : ty) : types.View :=
  match t with Named => types.Named | _ => types.Basic end.

Definition Underlying (t : ty) : ty :=
  match t with
  | Invalid => Invalid
  | Named | Pong => Ping
  | Ping => Pong
  end.

Definition goTypes : GoTypes :=
  Build_GoTypes ty ty_eq_dec view Underlying (fun t => t) Invalid eq_refl
    (fun _ _ => (None, [])) (fun _ => true).

Definition pkg : @loader.Package goTypes :=
  @loader.Build_Package goTypes "example.com/demo/cyclic" "cyclic"
    (fun _ => Some Named) (inr []) [].

Definition named : markers.TypeInfo :=
  {| markers.Name := "Named"; markers.Markers := ∅;
     markers.RawSpec := {| ast.Name := {| ast.IdentName := "Named"; ast.NamePos := 1 |} |} |}.
End Cyclic.

(** ** A second sample package: declarations that are not structs

<<
    package aliases

    type Names []string     // generate=true
    type Alias = int        // generate=true
    type Broken Broken      // generate=true, an invalid recursive type
    type Missing ...        // generate=true, unknown to the type checker
>>
*)

Module Aliases.
Inductive ty := Invalid | Int | Strings | Names.

Global Instance ty_eq_dec : EqDecision ty.
Proof. solve_decision. Defined.

Definition view (t : ty) : types.View :=
  match t with
  | Invalid | Int => types.Basic
  | Strings => types.Other
  | Names => types.Named
  end.

Definition Underlying (t : ty) : ty :=
  match t with Names => Strings | t => t end.

Definition goTypes : GoTypes :=
  Build_GoTypes ty ty_eq_dec view Underlying (fun t => t) Invalid eq_refl
    (fun _ _ => (None, [])) Example.IsExported.

(** An alias declaration denotes the aliased type itself. *)
Definition TypeOf (id : ast.Ident) : option ty :=
  let name := ast.IdentName id in
  if String.eqb name "Names" then Some Names
  else if String.eqb name "Alias" then Some Int
  else if String.eqb name "Broken" then Some Invalid
  else None.

Definition names := Example.decl "Names" 10 (Example.marked true).
Definition alias := Example.decl "Alias" 20 (Example.marked true).
Definition broken := Example.decl "Broken" 30 (Example.marked true).
Definition missing := Example.decl "Missing" 40 (Example.marked true).

Definition pkg (infos : list markers.TypeInfo) : @loader.Package goTypes :=
  @loader.Build_Package goTypes "example.com/demo/aliases" "aliases" TypeOf (inr infos)
    [("example.com/demo/aliases", loader.Errorf "invalid recursive type Broken")].
End Aliases.

(** * Properties *)

(** Unfolds the monad so that a call can be run on a state. *)
Ltac run :=
  unfold Markers_Get, ast_IsExported, TypesInfo_TypeOf, AddError, logCall,
    lift, panic, outOfFuel, logged;
  unfold mbind, M_bind, mret, M_ret; simpl.

Section Classifier.
Context `{GoTypes}.

(** ** Enablement *)

Lemma enabledOnType_spec (info : markers.TypeInfo) (s : State) :
  enabledOnType info s =
  match markers.Get (markers.Markers info) enableTypeMarker_Name with
  | Some (markers.BoolValue b) =>
    Returns b (logged s [CallMarkersGet (markers.Name info) enableTypeMarker_Name])
  | Some (markers.OtherValue _) => Panics "interface conversion: interface {} is not bool"
  | None =>
    Returns false (logged s [CallMarkersGet (markers.Name info) enableTypeMarker_Name])
  end.
Proof.
  unfold enabledOnType. run.
  destruct (markers.Get _ _) as [[b|repr]|]; reflexivity.
Qed.

(** ** The visibility gate *)

Lemma shouldBeCopied_unexported (fuel : nat) (pkg : loader.Package)
    (info : markers.TypeInfo) (s : State) :
  IsExported (markers.Name info) = false ->
  shouldBeCopied fuel pkg info s =
  Returns false (logged s [CallIsExported (markers.Name info)]).
Proof.
  intros Hname. unfold shouldBeCopied. run. rewrite Hname. reflexivity.
Qed.
End Classifier.

Section Callback.
Context `{GoTypes} `{Toolchain}.

(** A declaration that is not enabled is left after the marker lookup. *)
Lemma eachType_not_enabled (fuel : nat) (root : loader.Package)
    (structs : list copyStructs) (info : markers.TypeInfo) (s : State) :
  result (enabledOnType info s) = Some false ->
  eachType fuel root structs info s =
  Returns structs (logged s [CallMarkersGet (markers.Name info) enableTypeMarker_Name]).
Proof.
  rewrite enabledOnType_spec. unfold eachType.
  unfold mbind at 1. unfold M_bind. rewrite enabledOnType_spec.
  destruct (markers.Get _ _) as [[[|]|repr]|]; simpl; intros Hres;
    try discriminate; reflexivity.
Qed.

(** An enabled declaration with an unexported name is left after the
    export check. *)
Lemma eachType_unexported (fuel : nat) (root : loader.Package)
    (structs : list copyStructs) (info : markers.TypeInfo) (s : State) :
  result (enabledOnType info s) = Some true ->
  IsExported (markers.Name info) = false ->
  eachType fuel root structs info s =
  Returns structs (logged s [CallMarkersGet (markers.Name info) enableTypeMarker_Name;
                             CallIsExported (markers.Name info)]).
Proof.
  rewrite enabledOnType_spec. intros Hres Hname. unfold eachType.
  unfold mbind at 1. unfold M_bind. rewrite enabledOnType_spec.
  destruct (markers.Get _ _) as [[[|]|repr]|]; simpl in *; try discriminate.
  unfold mbind at 1. unfold M_bind.
  rewrite shouldBeCopied_unexported by assumption. simpl.
  unfold mret, M_ret, logged. simpl. rewrite <- app_assoc. reflexivity.
Qed.
End Callback.

Section AliasWalk.
Context `{GoTypes}.

(** ** Alias chains *)

Lemma chain_S (n : nat) (t : Ty) : chain (S n) t = chain n (Underlying t).
Proof. unfold chain. apply Nat.iter_succ_r. Qed.

Lemma chain_fixed (n : nat) (t : Ty) : Underlying t = t -> chain n t = t.
Proof.
  intros Hfix. induction n as [|n IH]; [reflexivity|].
  unfold chain in *. simpl. rewrite IH. exact Hfix.
Qed.

(** ** The manual-method test *)

Lemma hasShallowCopyMethod_declares (t : Ty) :
  DeclaresShallowCopy t -> hasShallowCopyMethod t = Ok true.
Proof.
  intros (sig & i & params & res & Hlookup & Hview & Hlen).
  unfold hasShallowCopyMethod. rewrite Hlookup. simpl. rewrite Hview, Hlen.
  simpl. rewrite andb_false_r. reflexivity.
Qed.

Lemma hasShallowCopyMethod_true (t : Ty) :
  hasShallowCopyMethod t = Ok true -> DeclaresShallowCopy t.
Proof.
  unfold hasShallowCopyMethod, DeclaresShallowCopy.
  destruct (LookupFieldOrMethod t "ShallowCopy") as [obj ind].
  destruct ind as [|i [|i' ind]]; simpl; try discriminate.
  destruct obj as [sig|]; try discriminate.
  destruct (view sig) as [| |fields| |params results|] eqn:Hview; try discriminate.
  destruct params as [[|p ps]|], results as [[|r [|r' rs]]|];
    simpl; try discriminate; intros _.
  - exists sig, i, (Some []), r. auto.
  - exists sig, i, None, r. auto.
Qed.

Lemma hasShallowCopyMethod_none (t : Ty) :
  NoShallowCopy t -> hasShallowCopyMethod t = Ok false.
Proof.
  unfold NoShallowCopy, hasShallowCopyMethod.
  destruct (LookupFieldOrMethod t "ShallowCopy") as [obj ind]. simpl.
  intros ->. destruct (negb _); reflexivity.
Qed.

(** ** The loop *)

Lemma aliasWalk_eq (fuel : nat) (lastType underlyingType : Ty) :
  aliasWalk fuel lastType underlyingType =
  if decide (underlyingType = lastType) then mret (Done lastType)
  else match fuel with
  | 0 => outOfFuel
  | S fuel' =>
    manual ← lift (hasShallowCopyMethod underlyingType);
    if manual : bool then mret ReturnTrue
    else if negb (isBasic underlyingType) then mret ReturnTrue
    else aliasWalk fuel' underlyingType (Underlying underlyingType)
  end.
Proof. destruct fuel; reflexivity. Qed.

(** A manual method further down the chain is found, unless a lookup on
    the way panics. *)
Lemma aliasWalk_manual (k : nat) : forall (fuel : nat) (t : Ty) (s : State),
  hasShallowCopyMethod t = Ok false ->
  hasShallowCopyMethod (chain (S k) t) = Ok true ->
  (forall j msg, j <= k -> hasShallowCopyMethod (chain j t) <> Panic msg) ->
  k < fuel ->
  aliasWalk fuel t (Underlying t) s = Returns ReturnTrue s.
Proof.
  induction k as [|k IH]; intros fuel t s Hself Hfound Hsafe Hfuel;
    rewrite aliasWalk_eq;
    (destruct (decide (Underlying t = t)) as [Hfix|Hmove];
     [rewrite (chain_fixed _ _ Hfix) in Hfound; congruence|]);
    (destruct fuel as [|fuel]; [lia|]).
  - change (chain 1 t) with (Underlying t) in Hfound. run. rewrite Hfound.
    reflexivity.
  - rewrite chain_S in Hfound. run.
    destruct (hasShallowCopyMethod (Underlying t)) as [[|]|msg] eqn:Hnext; simpl.
    + reflexivity.
    + destruct (isBasic (Underlying t)); simpl; [|reflexivity].
      apply IH; [assumption..| |lia].
      intros j msg Hj. rewrite <- chain_S. apply Hsafe. lia.
    + exfalso. apply (Hsafe 1 msg); [lia|]. exact Hnext.
Qed.

(** A chain of basic types without manual methods is walked to its end. *)
Lemma aliasWalk_basic (n : nat) : forall (fuel : nat) (t : Ty) (s : State),
  chain (S n) t = chain n t ->
  (forall j, 1 <= j <= n -> isBasic (chain j t) = true /\ NoShallowCopy (chain j t)) ->
  n <= fuel ->
  aliasWalk fuel t (Underlying t) s = Returns (Done (chain n t)) s.
Proof.
  induction n as [|n IH]; intros fuel t s Hconv Hbasic Hfuel; rewrite aliasWalk_eq.
  - change (Underlying t = t) in Hconv.
    destruct (decide (Underlying t = t)); [reflexivity|contradiction].
  - destruct (decide (Underlying t = t)) as [Hfix|Hmove].
    + rewrite (chain_fixed _ _ Hfix). reflexivity.
    + destruct fuel as [|fuel]; [lia|].
      destruct (Hbasic 1 ltac:(lia)) as [Hb Hno].
      change (chain 1 t) with (Underlying t) in Hb, Hno.
      run. rewrite (hasShallowCopyMethod_none _ Hno). simpl. rewrite Hb. simpl.
      rewrite chain_S. apply IH; [| |lia].
      * rewrite <- !chain_S. exact Hconv.
      * intros j Hj. rewrite <- chain_S. apply Hbasic. lia.
Qed.

(** On a chain that reaches a fixed point after [n] links the loop is over
    within [n] rounds, and more fuel changes nothing. *)
Lemma aliasWalk_converges (n : nat) : forall (fuel : nat) (t : Ty) (s : State),
  chain (S n) t = chain n t ->
  n <= fuel ->
  aliasWalk fuel t (Underlying t) s = aliasWalk n t (Underlying t) s /\
  aliasWalk n t (Underlying t) s <> OutOfFuel.
Proof.
  induction n as [|n IH]; intros fuel t s Hconv Hfuel;
    rewrite (aliasWalk_eq fuel), (aliasWalk_eq _ t).
  - change (Underlying t = t) in Hconv.
    destruct (decide (Underlying t = t)); [|contradiction].
    split; [reflexivity|discriminate].
  - destruct (decide (Underlying t = t)) as [Hfix|Hmove];
      [split; [reflexivity|discriminate]|].
    destruct fuel as [|fuel]; [lia|]. run.
    destruct (hasShallowCopyMethod (Underlying t)) as [[|]|msg]; simpl;
      [split; [reflexivity|discriminate]| |split; [reflexivity|discriminate]].
    destruct (isBasic (Underlying t)); simpl; [|split; [reflexivity|discriminate]].
    apply IH; [|lia]. rewrite <- !chain_S. exact Hconv.
Qed.

(** ** The classifier on a resolved, exported, named type *)

Lemma named_not_invalid (t : Ty) : isNamed t = true -> Some t <> Some Typ_Invalid.
Proof.
  unfold isNamed. intros Hnamed [= ->]. rewrite Typ_Invalid_Basic in Hnamed.
  discriminate.
Qed.

(** What [shouldBeCopied] does once the name is exported and the type
    checker has answered with a named type. *)
Lemma shouldBeCopied_named (fuel : nat) (pkg : loader.Package)
    (info : markers.TypeInfo) (T : Ty) (s : State) :
  IsExported (markers.Name info) = true ->
  loader.TypeOf pkg (ast.Name (markers.RawSpec info)) = Some T ->
  isNamed T = true ->
  shouldBeCopied fuel pkg info s =
  let s' := logged s [CallIsExported (markers.Name info);
                      CallTypeOf (ast.IdentName (ast.Name (markers.RawSpec info)))] in
  if isPointer (Underlying T) then Returns false s'
  else match hasShallowCopyMethod T with
       | Ok true => Returns true s'
       | Ok false =>
         match aliasWalk fuel T (Underlying T) s' with
         | Returns ReturnTrue s'' => Returns true s''
         | Returns (Done lastType) s'' => Returns (isStruct lastType) s''
         | Panics msg => Panics msg
         | OutOfFuel => OutOfFuel
         end
       | Panic msg => Panics msg
       end.
Proof.
  intros Hname Htype Hnamed. unfold shouldBeCopied. run.
  rewrite Hname, Htype. simpl.
  destruct (decide (Some T = Some Typ_Invalid)) as [Hinv|_];
    [exfalso; exact (named_not_invalid _ Hnamed Hinv)|].
  rewrite Hnamed. simpl. rewrite <- app_assoc. simpl.
  destruct (isPointer (Underlying T)) eqn:Hptr.
  - assert (isNamed (Underlying T) = false) as ->.
    { unfold isPointer, isNamed in *. destruct (view (Underlying T)); congruence. }
    assert (isStruct (Underlying T) = false) as ->.
    { unfold isPointer, isStruct in *. destruct (view (Underlying T)); congruence. }
    reflexivity.
  - rewrite Hnamed.
    destruct (hasShallowCopyMethod T) as [[|]|msg]; simpl; try reflexivity.
    destruct (aliasWalk fuel T (Underlying T) _) as [[|lastType] s''|msg|];
      reflexivity.
Qed.
End AliasWalk.

(** ** The order of [sort.Strings] *)

Lemma string_leb_trans (a : string) : forall b c : string,
  String.leb a b = true -> String.leb b c = true -> String.leb a c = true.
Proof.
  unfold String.leb.
  induction a as [|x a IH]; intros [|y b] [|z c]; simpl; try easy.
  unfold Ascii.compare.
  destruct (N.compare_spec (N_of_ascii x) (N_of_ascii y)) as [Hxy|Hxy|Hxy],
           (N.compare_spec (N_of_ascii y) (N_of_ascii z)) as [Hyz|Hyz|Hyz],
           (N.compare_spec (N_of_ascii x) (N_of_ascii z)) as [Hxz|Hxz|Hxz];
    try easy; try lia.
  apply IH.
Qed.

Global Instance string_le_trans : Transitive jen.string_le.
Proof. intros a b c. apply string_leb_trans. Qed.

Global Instance string_le_antisym : AntiSymm (=) jen.string_le.
Proof. intros a b. apply String.leb_antisym. Qed.

Global Instance string_le_total : Total jen.string_le.
Proof. intros a b. apply String.leb_total. Qed.

(** Sorting a list gives the list back exactly when the list is sorted. *)
Lemma merge_sort_id (l : list string) :
  merge_sort jen.string_le l = l <-> Sorted jen.string_le l.
Proof.
  split.
  - intros <-. apply (Sorted_merge_sort jen.string_le).
  - intros Hsorted. apply (Sorted_unique jen.string_le).
    + apply (Sorted_merge_sort jen.string_le).
    + exact Hsorted.
    + apply merge_sort_Permutation.
Qed.

(** Sorting does not depend on the order of the input. *)
Lemma merge_sort_perm (l1 l2 : list string) :
  l1 ≡ₚ l2 -> merge_sort jen.string_le l1 = merge_sort jen.string_le l2.
Proof.
  intros Hperm. apply (Sorted_unique jen.string_le).
  - apply (Sorted_merge_sort jen.string_le).
  - apply (Sorted_merge_sort jen.string_le).
  - rewrite !merge_sort_Permutation. exact Hperm.
Qed.

(** ** Printing a literal *)

Lemma literalKeys_entries (fields : list string) :
  literalKeys (map entry fields) = fields.
Proof.
  unfold literalKeys. rewrite map_map. simpl. apply map_id.
Qed.

(** The two accumulators of [Dict.render] after ranging over entries made
    by the generator. *)
Lemma Dict_render_fold (visit : jen.Dict) :
  forall (keys0 : list string) (lookup0 : gmap string (jen.Code * jen.Code)),
  Forall (fun kv => kv = entry (jen.render kv.1)) visit ->
  (forall k, k ∈ keys0 -> lookup0 !! k = Some (entry k)) ->
  exists lookup,
    fold_left (fun '(keys, lookup) kv =>
                 (keys ++ [jen.render kv.1], <[jen.render kv.1 := kv]> lookup))
              visit (keys0, lookup0)
    = (keys0 ++ literalKeys visit, lookup) /\
    forall k, k ∈ keys0 ++ literalKeys visit -> lookup !! k = Some (entry k).
Proof.
  induction visit as [|kv visit IH]; intros keys0 lookup0 Hgood Hinv; simpl.
  - exists lookup0. rewrite app_nil_r. auto.
  - inversion Hgood as [|? ? Hkv Hrest]; subst.
    destruct (IH (keys0 ++ [jen.render kv.1]) (<[jen.render kv.1 := kv]> lookup0) Hrest)
      as (lookup & Hfold & Hlookup).
    + intros k Hk.
      destruct (decide (jen.render kv.1 = k)) as [<-|Hne].
      * rewrite lookup_insert_eq. congruence.
      * rewrite lookup_insert_ne by assumption. apply Hinv.
        apply elem_of_app in Hk as [Hk|Hk]; [assumption|].
        apply list_elem_of_singleton in Hk. congruence.
    + exists lookup. rewrite <- app_assoc in Hfold, Hlookup. auto.
Qed.

Lemma omap_total {A B} (f : A -> option B) (g : A -> B) (l : list A) :
  (forall x, x ∈ l -> f x = Some (g x)) -> omap f l = map g l.
Proof.
  induction l as [|x l IH]; intros Hf; simpl; [reflexivity|].
  rewrite (Hf x) by left. simpl. f_equal. apply IH.
  intros y Hy. apply Hf. right. exact Hy.
Qed.

(** Whatever the order in which the map is ranged over, the literal is
    printed with its entries sorted by field name. *)
Lemma Dict_render_sorted (visit : jen.Dict) (fields : list string) :
  visit ≡ₚ map entry fields ->
  jen.Dict_render visit = map entry (merge_sort jen.string_le fields).
Proof.
  intros Hperm.
  assert (Forall (fun kv => kv = entry (jen.render kv.1)) visit) as Hgood.
  { rewrite Hperm. apply Forall_forall. intros kv Hkv.
    apply list_elem_of_fmap in Hkv as (f & -> & _). reflexivity. }
  destruct (Dict_render_fold visit [] ∅ Hgood) as (lookup & Hfold & Hlookup).
  { intros k Hk. inversion Hk. }
  unfold jen.Dict_render. rewrite Hfold. simpl in *.
  assert (literalKeys visit ≡ₚ fields) as Hkeys.
  { rewrite <- (literalKeys_entries fields). unfold literalKeys.
    apply Permutation_map. exact Hperm. }
  rewrite (omap_total _ entry).
  - f_equal. apply merge_sort_perm. exact Hkeys.
  - intros k Hk. apply Hlookup. rewrite merge_sort_Permutation in Hk. exact Hk.
Qed.

Section Emitter.
Context `{GoTypes} `{Toolchain}.

Lemma fieldNames_spec (stype : list types.Var) :
  fieldNames stype = map types.VarName stype.
Proof.
  unfold fieldNames, types.NumFields.
  assert (forall n acc, n <= List.length stype ->
            fold_left (fun fields i => fields ++ [types.FieldName stype i]) (seq 0 n) acc
            = acc ++ map types.VarName (take n stype)) as Hloop.
  { induction n as [|n IH]; intros acc Hn.
    - simpl. rewrite app_nil_r. reflexivity.
    - rewrite seq_S, fold_left_app, IH by lia. simpl.
      destruct (lookup_lt_is_Some_2 stype n ltac:(lia)) as [v Hv].
      rewrite (take_S_r _ _ _ Hv), map_app, app_assoc. simpl.
      unfold types.FieldName. rewrite Hv. reflexivity. }
  rewrite Hloop by lia. rewrite firstn_all. reflexivity.
Qed.

Lemma fillDict_spec (s : copyStructs) (d : jen.Dict) :
  fillDict s d = d ++ map entry (Fields s).
Proof.
  unfold fillDict. generalize d. induction (Fields s) as [|f fs IH]; intros d0; simpl.
  - rewrite app_nil_r. reflexivity.
  - rewrite IH, <- app_assoc. reflexivity.
Qed.

Lemma buildFile_spec (name : string) (structs : list copyStructs) :
  buildFile name structs =
  {| jen.PackageName := name; jen.Decls := map shallowCopyFunc structs |}.
Proof.
  unfold buildFile.
  assert (forall code,
            fold_left (fun code s => jen.Add code (shallowCopyFunc s)) structs code
            = {| jen.PackageName := jen.PackageName code;
                 jen.Decls := jen.Decls code ++ map shallowCopyFunc structs |}) as Hloop.
  { induction structs as [|s structs IH]; intros code; simpl.
    - rewrite app_nil_r. destruct code; reflexivity.
    - rewrite IH. simpl. rewrite <- app_assoc. reflexivity. }
  rewrite Hloop. reflexivity.
Qed.

(** What the printer receives does not depend on how maps are ranged over. *)
Lemma Render_spec (visit : nat -> jen.Dict -> jen.Dict) (name : string)
    (structs : list copyStructs) :
  (forall i d, visit i d ≡ₚ d) ->
  Render visit (buildFile name structs) =
  jen_print {| jen.PackageName := name; jen.Decls := map printedFunc structs |}.
Proof.
  intros Hvisit. rewrite buildFile_spec. unfold Render. simpl. f_equal. f_equal.
  rewrite <- (imap_const printedFunc), imap_fmap. apply imap_ext.
  intros i s _. simpl. unfold printedFunc. f_equal.
  apply Dict_render_sorted. rewrite Hvisit.
  unfold jen.DictFunc. rewrite fillDict_spec. reflexivity.
Qed.
End Emitter.

Section Driver.
Context `{GoTypes} `{Toolchain}.

(** ** The callback *)

Lemma shouldBeCopied_true_exported (fuel : nat) (pkg : loader.Package)
    (info : markers.TypeInfo) (s s' : State) :
  shouldBeCopied fuel pkg info s = Returns true s' ->
  IsExported (markers.Name info) = true.
Proof.
  destruct (IsExported (markers.Name info)) eqn:Hname; [reflexivity|].
  rewrite shouldBeCopied_unexported by assumption. discriminate.
Qed.

(** The callback appends at most one specification, and only for an
    enabled, exported declaration whose underlying type is a struct. *)
Lemma eachType_returns (fuel : nat) (root : loader.Package)
    (structs structs' : list copyStructs) (info : markers.TypeInfo) (s s' : State) :
  eachType fuel root structs info s = Returns structs' s' ->
  structs' = structs \/
  (markers.Get (markers.Markers info) enableTypeMarker_Name = Some (markers.BoolValue true) /\
   IsExported (markers.Name info) = true /\
   exists T stype,
     loader.TypeOf root (ast.Name (markers.RawSpec info)) = Some T /\
     view (Underlying T) = types.Struct stype /\
     structs' = structs ++ [{| StructName := markers.Name info;
                               Fields := fieldNames stype |}]).
Proof.
  unfold eachType. unfold mbind at 1. unfold M_bind.
  rewrite enabledOnType_spec.
  destruct (markers.Get _ _) as [[[|]|repr]|]; simpl;
    try discriminate; try (intros [= <- _]; left; reflexivity).
  unfold mbind at 1. unfold M_bind.
  destruct (shouldBeCopied fuel root info _) as [[|] s1|msg|] eqn:Hcopied;
    simpl; try discriminate; try (intros [= <- _]; left; reflexivity).
  apply shouldBeCopied_true_exported in Hcopied. run.
  destruct (loader.TypeOf root _) as [T|] eqn:Htype.
  - destruct (decide (Some T = Some Typ_Invalid)); simpl;
      (destruct (view (Underlying T)) as [| |stype| | |] eqn:Hview; simpl;
       try (intros [= <- _]; left; reflexivity);
       intros [= <- _]; right; repeat split; try assumption;
       exists T, stype; auto).
  - destruct (decide (None = Some Typ_Invalid)); simpl; discriminate.
Qed.

(** Every specification collected for a package names an exported type. *)
Lemma eachTypes_exported (fuel : nat) (root : loader.Package)
    (infos : list markers.TypeInfo) :
  forall (structs structs' : list copyStructs) (s s' : State),
  Forall (fun c => IsExported (StructName c) = true) structs ->
  eachTypes fuel root structs infos s = Returns structs' s' ->
  Forall (fun c => IsExported (StructName c) = true) structs'.
Proof.
  induction infos as [|info infos IH]; intros structs structs' s s' Hall; simpl.
  - intros [= <- _]. exact Hall.
  - unfold mbind, M_bind.
    destruct (eachType fuel root structs info s) as [structs1 s1|msg|] eqn:Hone;
      try discriminate.
    apply IH. apply eachType_returns in Hone as [->|(_ & Hname & T & stype & _ & _ & ->)].
    + exact Hall.
    + apply Forall_app. split; [exact Hall|]. constructor; [exact Hname|constructor].
Qed.

(** ** Emission *)

(** Emission does not depend on how maps are ranged over. *)
Lemma emitFile_visit (visit1 visit2 : nat -> jen.Dict -> jen.Dict)
    (root : loader.Package) (structs : list copyStructs) :
  (forall i d, visit1 i d ≡ₚ d) ->
  (forall i d, visit2 i d ≡ₚ d) ->
  emitFile visit1 root structs = emitFile visit2 root structs.
Proof.
  intros Hvisit1 Hvisit2. unfold emitFile.
  rewrite (Render_spec visit1), (Render_spec visit2) by assumption. reflexivity.
Qed.

Lemma generateRoot_visit (fuel : nat) (visit1 visit2 : nat -> jen.Dict -> jen.Dict)
    (root : loader.Package) (s : State) :
  (forall i d, visit1 i d ≡ₚ d) ->
  (forall i d, visit2 i d ≡ₚ d) ->
  generateRoot fuel visit1 root s = generateRoot fuel visit2 root s.
Proof.
  intros Hvisit1 Hvisit2. unfold generateRoot, typeCheck. unfold mbind, M_bind.
  destruct (loader.EachType root) as [err|infos]; [reflexivity|].
  destruct (eachTypes fuel root [] infos _) as [structs s1|msg|]; try reflexivity.
  rewrite (emitFile_visit visit1 visit2) by assumption. reflexivity.
Qed.

Lemma Generate_visit (fuel : nat) (visit1 visit2 : string -> nat -> jen.Dict -> jen.Dict)
    (roots : list loader.Package) (s : State) :
  (forall id i d, visit1 id i d ≡ₚ d) ->
  (forall id i d, visit2 id i d ≡ₚ d) ->
  Generate fuel visit1 roots s = Generate fuel visit2 roots s.
Proof.
  intros Hvisit1 Hvisit2. revert s.
  induction roots as [|root roots IH]; intros s; simpl; [reflexivity|].
  unfold mbind, M_bind.
  rewrite (generateRoot_visit fuel (visit1 (loader.ID root)) (visit2 (loader.ID root)))
    by auto.
  destruct (generateRoot fuel _ root s) as [[|] s2|msg|]; try reflexivity.
  apply IH.
Qed.
End Driver.

(** * The specification's claims *)

Section Claims.
Context `{GoTypes} `{Toolchain}.

(** C1 (as amended).  A type of the chain may already have a manual
    ShallowCopy: a member found at index depth one that is a function with
    no parameter and one result.  If the declared type [T] is exported and
    named, its underlying type is not a pointer, such a member is found on
    [T] or on a type reached from it by [k] underlying-type links, and no
    lookup before it panics, then [shouldBeCopied] returns true, whatever
    the end of the chain is (struct or not), and adds no error. *)
Theorem manual_override_eligible (fuel k : nat) (pkg : loader.Package)
    (info : markers.TypeInfo) (T : Ty) (s : State) :
  IsExported (markers.Name info) = true ->
  loader.TypeOf pkg (ast.Name (markers.RawSpec info)) = Some T ->
  view T = types.Named ->
  view (Underlying T) <> types.Pointer ->
  DeclaresShallowCopy (chain k T) ->
  (forall j msg, j < k -> hasShallowCopyMethod (chain j T) <> Panic msg) ->
  k <= fuel ->
  shouldBeCopied fuel pkg info s =
  Returns true (logged s [CallIsExported (markers.Name info);
                          CallTypeOf (ast.IdentName (ast.Name (markers.RawSpec info)))]).
Proof.
  intros Hname Htype Hnamed Hptr Hmanual Hsafe Hfuel.
  rewrite (shouldBeCopied_named fuel pkg info T s Hname Htype)
    by (unfold isNamed; rewrite Hnamed; reflexivity).
  assert (isPointer (Underlying T) = false) as ->.
  { unfold isPointer. destruct (view (Underlying T)); congruence. }
  apply hasShallowCopyMethod_declares in Hmanual. simpl.
  destruct k as [|k].
  - change (chain 0 T) with T in Hmanual. rewrite Hmanual. reflexivity.
  - destruct (hasShallowCopyMethod T) as [[|]|msg] eqn:Hself.
    + reflexivity.
    + rewrite (aliasWalk_manual k fuel T _ Hself Hmanual); [reflexivity| |lia].
      intros j msg Hj. apply Hsafe. lia.
    + exfalso. apply (Hsafe 0 msg); [lia|]. exact Hself.
Qed.

(** C2 (as amended).  For an exported declaration whose named type has a
    pointer as its underlying type, the classifier goes on with that
    pointer type itself, not with the pointee: the declaration is not
    eligible, whatever the pointee is, and no error is added. *)
Theorem named_pointer_ineligible (fuel : nat) (pkg : loader.Package)
    (info : markers.TypeInfo) (T : Ty) (s : State) :
  IsExported (markers.Name info) = true ->
  loader.TypeOf pkg (ast.Name (markers.RawSpec info)) = Some T ->
  view T = types.Named ->
  view (Underlying T) = types.Pointer ->
  shouldBeCopied fuel pkg info s =
  Returns false (logged s [CallIsExported (markers.Name info);
                           CallTypeOf (ast.IdentName (ast.Name (markers.RawSpec info)))]).
Proof.
  intros Hname Htype Hnamed Hptr.
  rewrite (shouldBeCopied_named fuel pkg info T s Hname Htype)
    by (unfold isNamed; rewrite Hnamed; reflexivity).
  unfold isPointer. rewrite Hptr. reflexivity.
Qed.

(** C3.  For a declaration whose name is not exported, [shouldBeCopied]
    returns false after the export check alone, whatever the markers and
    the type are; the callback then collects nothing for it and adds no
    error. *)
Theorem unexported_never_copied (fuel : nat) (pkg : loader.Package)
    (info : markers.TypeInfo) (structs : list copyStructs) (s : State) :
  IsExported (markers.Name info) = false ->
  shouldBeCopied fuel pkg info s =
    Returns false (logged s [CallIsExported (markers.Name info)]) /\
  forall structs' s',
    eachType fuel pkg structs info s = Returns structs' s' ->
    structs' = structs /\ Errors s' = Errors s /\ Files s' = Files s.
Proof.
  intros Hname. split; [apply shouldBeCopied_unexported; exact Hname|].
  intros structs' s'.
  destruct (result (enabledOnType info s)) as [[|]|] eqn:Henabled.
  - rewrite eachType_unexported by assumption. intros [= <- <-]. auto.
  - rewrite eachType_not_enabled by assumption. intros [= <- <-]. auto.
  - unfold eachType. unfold mbind at 1. unfold M_bind.
    destruct (enabledOnType info s); simpl in Henabled; discriminate.
Qed.

(** C4 (as amended).  The field names are extracted in declaration order.
    The literal of the generated method is printed from a map, whose
    entries come out sorted by field name however the map is ranged over:
    the literal lists the fields in ascending bytewise order of their
    names, which is the declaration order exactly when the fields are
    declared in that order. *)
Theorem literal_lists_fields_sorted (name : string) (stype : list types.Var)
    (visit : jen.Dict) :
  let s := {| StructName := name; Fields := fieldNames stype |} in
  visit ≡ₚ jen.ReturnValues (shallowCopyFunc s) ->
  Fields s = map types.VarName stype /\
  jen.Dict_render visit =
    map entry (merge_sort jen.string_le (map types.VarName stype)) /\
  (literalKeys (jen.Dict_render visit) = map types.VarName stype <->
   Sorted jen.string_le (map types.VarName stype)).
Proof.
  intros s Hvisit. subst s. simpl in *.
  unfold jen.DictFunc in Hvisit. rewrite fillDict_spec in Hvisit.
  simpl in Hvisit. rewrite fieldNames_spec in *.
  apply Dict_render_sorted in Hvisit. rewrite Hvisit, literalKeys_entries.
  split; [reflexivity|]. split; [reflexivity|]. apply merge_sort_id.
Qed.

(** C5.  For a fixed package and a fixed sequence of copy specifications,
    the text handed to the formatter and everything the emission step does
    with it (errors recorded, bytes written, result) are the same for any
    two runs, however each run ranges over the maps of the literals. *)
Theorem emission_deterministic (visit1 visit2 : nat -> jen.Dict -> jen.Dict)
    (root : loader.Package) (structs : list copyStructs) (s : State) :
  (forall i d, visit1 i d ≡ₚ d) ->
  (forall i d, visit2 i d ≡ₚ d) ->
  Render visit1 (buildFile (loader.Name root) structs) =
    Render visit2 (buildFile (loader.Name root) structs) /\
  emitFile visit1 root structs s = emitFile visit2 root structs s.
Proof.
  intros Hvisit1 Hvisit2. split.
  - rewrite !Render_spec by assumption. reflexivity.
  - rewrite (emitFile_visit visit1 visit2) by assumption. reflexivity.
Qed.

(** C6.  For an exported named type whose chain of underlying types
    reaches its end after [n] links, consists of basic types only and has no
    ShallowCopy member anywhere, [shouldBeCopied] returns false (given fuel
    for [n] rounds) and adds no error. *)
Theorem basic_alias_ineligible (fuel n : nat) (pkg : loader.Package)
    (info : markers.TypeInfo) (T : Ty) (s : State) :
  IsExported (markers.Name info) = true ->
  loader.TypeOf pkg (ast.Name (markers.RawSpec info)) = Some T ->
  view T = types.Named ->
  chain (S n) T = chain n T ->
  (forall j, 1 <= j <= n -> view (chain j T) = types.Basic) ->
  (forall j, j <= n -> NoShallowCopy (chain j T)) ->
  n <= fuel ->
  shouldBeCopied fuel pkg info s =
  Returns false (logged s [CallIsExported (markers.Name info);
                           CallTypeOf (ast.IdentName (ast.Name (markers.RawSpec info)))]).
Proof.
  intros Hname Htype Hnamed Hconv Hbasic Hnone Hfuel.
  rewrite (shouldBeCopied_named fuel pkg info T s Hname Htype)
    by (unfold isNamed; rewrite Hnamed; reflexivity).
  assert (isPointer (Underlying T) = false) as ->.
  { unfold isPointer. destruct n as [|n].
    - change (Underlying T = T) in Hconv. rewrite Hconv, Hnamed. reflexivity.
    - change (Underlying T) with (chain 1 T). rewrite Hbasic by lia. reflexivity. }
  simpl. rewrite (hasShallowCopyMethod_none T (Hnone 0 ltac:(lia))).
  rewrite (aliasWalk_basic n fuel T _ Hconv); [| |exact Hfuel].
  - f_equal. unfold isStruct. destruct n as [|n].
    + change (chain 0 T) with T. rewrite Hnamed. reflexivity.
    + rewrite Hbasic by lia. reflexivity.
  - intros j Hj. split; [|apply Hnone; lia].
    unfold isBasic. rewrite Hbasic by lia. reflexivity.
Qed.

(** C7 (as amended).  The callback consults the marker first.  For a
    declaration that is not enabled the export status is never checked;
    for an enabled one it is checked next.  An enabled declaration with an
    unexported name is skipped: nothing is collected and no error is
    added. *)
Theorem export_checked_after_annotation (fuel : nat) (root : loader.Package)
    (structs : list copyStructs) (info : markers.TypeInfo) (s : State) :
  let consulted := CallMarkersGet (markers.Name info) enableTypeMarker_Name in
  let get := markers.Get (markers.Markers info) enableTypeMarker_Name in
  ((get = None \/ get = Some (markers.BoolValue false)) ->
   eachType fuel root structs info s = Returns structs (logged s [consulted])) /\
  (get = Some (markers.BoolValue true) ->
   IsExported (markers.Name info) = false ->
   eachType fuel root structs info s =
   Returns structs (logged s [consulted; CallIsExported (markers.Name info)])).
Proof.
  intros consulted get. subst consulted get. split.
  - intros Hget. apply eachType_not_enabled. rewrite enabledOnType_spec.
    destruct Hget as [-> | ->]; reflexivity.
  - intros Hget Hname. apply eachType_unexported; [|exact Hname].
    rewrite enabledOnType_spec, Hget. reflexivity.
Qed.

(** C9.  If the chain of underlying types of the declared type reaches a
    fixed point after [n] links, the classifier finishes within fuel [n]:
    it returns or panics, and more fuel does not change its outcome. *)
Theorem alias_walk_terminates (fuel n : nat) (pkg : loader.Package)
    (info : markers.TypeInfo) (s : State) :
  (forall T, loader.TypeOf pkg (ast.Name (markers.RawSpec info)) = Some T ->
             chain (S n) T = chain n T) ->
  n <= fuel ->
  shouldBeCopied n pkg info s <> OutOfFuel /\
  shouldBeCopied fuel pkg info s = shouldBeCopied n pkg info s.
Proof.
  intros Hconv Hfuel.
  destruct (IsExported (markers.Name info)) eqn:Hname;
    [|rewrite !shouldBeCopied_unexported by assumption; split; [discriminate|reflexivity]].
  destruct (loader.TypeOf pkg (ast.Name (markers.RawSpec info))) as [T|] eqn:Htype.
  - destruct (isNamed T) eqn:Hnamed.
    + rewrite !(shouldBeCopied_named _ pkg info T s Hname Htype Hnamed). simpl.
      destruct (isPointer (Underlying T)); [split; [discriminate|reflexivity]|].
      destruct (hasShallowCopyMethod T) as [[|]|msg];
        try (split; [discriminate|reflexivity]).
      destruct (aliasWalk_converges n fuel T
                  (logged s [CallIsExported (markers.Name info);
                             CallTypeOf (ast.IdentName (ast.Name (markers.RawSpec info)))])
                  (Hconv T eq_refl) Hfuel) as [-> Hends].
      destruct (aliasWalk n T (Underlying T) _) as [[|lastType] s'|msg|];
        try (split; [discriminate|reflexivity]).
      contradiction.
    + unfold shouldBeCopied. run. rewrite Hname, Htype. simpl.
      destruct (decide (Some T = Some Typ_Invalid)); simpl;
        [split; [discriminate|reflexivity]|].
      rewrite Hnamed. simpl. split; [discriminate|reflexivity].
  - unfold shouldBeCopied. run. rewrite Hname, Htype. simpl.
    destruct (decide (None = Some Typ_Invalid)); simpl;
      split; (discriminate || reflexivity).
Qed.

(** C10.  For a declaration that carries no shallowcopy:generate marker, or
    carries it with value false, [enabledOnType] returns false and the
    callback returns at once: the marker lookup is the only call made,
    nothing is collected and no error is added.  A specification is
    collected only for a declaration whose marker is present with value
    true. *)
Theorem disabled_type_skipped (fuel : nat) (root : loader.Package)
    (structs : list copyStructs) (info : markers.TypeInfo) (s : State) :
  let consulted := CallMarkersGet (markers.Name info) enableTypeMarker_Name in
  let get := markers.Get (markers.Markers info) enableTypeMarker_Name in
  ((get = None \/ get = Some (markers.BoolValue false)) ->
   enabledOnType info s = Returns false (logged s [consulted]) /\
   eachType fuel root structs info s = Returns structs (logged s [consulted])) /\
  (forall structs' s',
     eachType fuel root structs info s = Returns structs' s' ->
     structs' <> structs ->
     get = Some (markers.BoolValue true)).
Proof.
  intros consulted get. subst consulted get. split.
  - intros Hget.
    assert (enabledOnType info s =
            Returns false (logged s [CallMarkersGet (markers.Name info) enableTypeMarker_Name]))
      as Henabled.
    { rewrite enabledOnType_spec. destruct Hget as [-> | ->]; reflexivity. }
    split; [exact Henabled|].
    apply eachType_not_enabled. rewrite Henabled. reflexivity.
  - intros structs' s' Hrun Hchanged.
    apply eachType_returns in Hrun as [->|(Hget & _)]; [contradiction|exact Hget].
Qed.
End Claims.

(** * The claims on the sample package *)

(** C1, counterexample.  [HandleRef] is an exported named type.  The type
    reached by one underlying-type link, the pointer to [Handle], exposes
    [Handle]'s manual ShallowCopy at index depth one, with no parameter and
    one result.  The classifier nevertheless returns false. *)
Lemma manual_override_named_pointer :
  Example.IsExported "HandleRef" = true /\
  Example.TypeOf (ast.Name (markers.RawSpec Example.handleRef)) = Some Example.HandleRef /\
  Example.view Example.HandleRef = types.Named /\
  @chain Example.goTypes 1 Example.HandleRef = Example.HandlePtr /\
  @DeclaresShallowCopy Example.goTypes Example.HandlePtr /\
  @hasShallowCopyMethod Example.goTypes Example.HandlePtr = Ok true /\
  forall fuel,
    @shouldBeCopied Example.goTypes fuel (Example.pkg []) Example.handleRef emptyState =
    Returns false (logged emptyState [CallIsExported "HandleRef"; CallTypeOf "HandleRef"]).
Proof.
  split; [reflexivity|]. split; [reflexivity|]. split; [reflexivity|].
  split; [reflexivity|]. split.
  { exists Example.CopySig, 0, None, (types.Build_Var ""). repeat split. }
  split; [reflexivity|]. intros fuel. reflexivity.
Qed.

Lemma manual_override_eligible_witness :
  Example.view (Example.Underlying Example.Celsius) = types.Basic /\
  @shouldBeCopied Example.goTypes 0 (Example.pkg []) Example.celsius emptyState =
  Returns true (logged emptyState [CallIsExported "Celsius"; CallTypeOf "Celsius"]).
Proof.
  split; [reflexivity|].
  apply (@manual_override_eligible Example.goTypes 0 0 (Example.pkg [])
           Example.celsius Example.Celsius emptyState).
  - reflexivity.
  - reflexivity.
  - reflexivity.
  - discriminate.
  - exists Example.CopySig, 0, None, (types.Build_Var ""). repeat split.
  - intros j msg Hj. lia.
  - lia.
Defined.

(** C2, counterexample.  The underlying type of [UserRef] is a pointer to
    [User], a struct type that is eligible when classified directly; yet
    [UserRef] is not eligible. *)
Lemma pointer_not_transparent :
  Example.view (Example.Underlying Example.UserRef) = types.Pointer /\
  Example.Elem (Example.Underlying Example.UserRef) = Example.User /\
  @isStruct Example.goTypes (Example.Underlying Example.User) = true /\
  result (@shouldBeCopied Example.goTypes 5 (Example.pkg []) Example.user emptyState)
    = Some true /\
  result (@shouldBeCopied Example.goTypes 5 (Example.pkg []) Example.userRef emptyState)
    = Some false.
Proof. repeat split. Qed.

Lemma named_pointer_ineligible_witness :
  @shouldBeCopied Example.goTypes 5 (Example.pkg []) Example.userRef emptyState =
  Returns false (logged emptyState [CallIsExported "UserRef"; CallTypeOf "UserRef"]).
Proof.
  apply (@named_pointer_ineligible Example.goTypes 5 (Example.pkg [])
           Example.userRef Example.UserRef emptyState); reflexivity.
Defined.

Lemma unexported_never_copied_witness :
  Example.IsExported "session" = false /\
  @shouldBeCopied Example.goTypes 5 (Example.pkg []) Example.session emptyState =
    Returns false (logged emptyState [CallIsExported "session"]) /\
  forall structs' s',
    @eachType Example.goTypes 5 (Example.pkg []) [] Example.session emptyState
      = Returns structs' s' ->
    structs' = [] /\ Errors s' = [] /\ Files s' = [].
Proof.
  split; [reflexivity|].
  apply (@unexported_never_copied Example.goTypes 5 (Example.pkg [])
           Example.session [] emptyState).
  reflexivity.
Defined.

(** C4, counterexample.  [Account] declares its fields in the order Name,
    ID, and they are extracted in that order; the literal of the generated
    method lists ID before Name, also in the file that is written. *)
Lemma declaration_order_not_kept :
  let account := {| StructName := "Account";
                    Fields := fieldNames [types.Build_Var "Name"; types.Build_Var "ID"] |} in
  Fields account = ["Name"; "ID"] /\
  literalKeys (jen.Dict_render (jen.ReturnValues (shallowCopyFunc account))) = ["ID"; "Name"] /\
  Files <$> final (@Generate Example.goTypes Example.toolchain 5 (fun _ => Example.inOrder)
                     [Example.pkg [Example.account]] emptyState) =
  Some [("example.com/demo/example", "zz_generated.shallowcopy.go",
         "package example func (o Account) ShallowCopy() Account { return Account{ID: o.ID, Name: o.Name} }")].
Proof. repeat split. Qed.

Lemma literal_lists_fields_sorted_witness :
  let stype := [types.Build_Var "ID"; types.Build_Var "Name"] in
  let visit := [entry "Name"; entry "ID"] in
  Fields {| StructName := "User"; Fields := fieldNames stype |} = ["ID"; "Name"] /\
  jen.Dict_render visit = map entry (merge_sort jen.string_le ["ID"; "Name"]) /\
  (literalKeys (jen.Dict_render visit) = ["ID"; "Name"] <->
   Sorted jen.string_le ["ID"; "Name"]).
Proof.
  apply (literal_lists_fields_sorted "User"
           [types.Build_Var "ID"; types.Build_Var "Name"]
           [entry "Name"; entry "ID"]).
  simpl. apply perm_swap.
Defined.

Lemma emission_deterministic_witness :
  let structs := [ {| StructName := "User"; Fields := ["ID"; "Name"] |};
                   {| StructName := "Account"; Fields := ["Name"; "ID"] |} ] in
  @Render Example.toolchain Example.inOrder (buildFile "example" structs) =
    @Render Example.toolchain Example.reversed (buildFile "example" structs) /\
  @emitFile Example.goTypes Example.toolchain Example.inOrder (Example.pkg []) structs emptyState =
    @emitFile Example.goTypes Example.toolchain Example.reversed (Example.pkg []) structs emptyState.
Proof.
  apply (@emission_deterministic Example.goTypes Example.toolchain
           Example.inOrder Example.reversed (Example.pkg [])).
  - intros i d. reflexivity.
  - intros i d. symmetry. apply Permutation_rev.
Defined.

Lemma basic_alias_ineligible_witness :
  @shouldBeCopied Example.goTypes 1 (Example.pkg []) Example.count emptyState =
  Returns false (logged emptyState [CallIsExported "Count"; CallTypeOf "Count"]).
Proof.
  apply (@basic_alias_ineligible Example.goTypes 1 1 (Example.pkg [])
           Example.count Example.Count emptyState).
  - reflexivity.
  - reflexivity.
  - reflexivity.
  - reflexivity.
  - intros j Hj. assert (j = 1) as -> by lia. reflexivity.
  - intros j Hj. destruct j as [|[|j]]; [reflexivity|reflexivity|lia].
  - lia.
Defined.

(** C7, counterexample.  For the enabled, unexported [session] the marker
    is looked up first and the export status is checked second; for
    [Plain], which has no marker, the export status is never checked. *)
Lemma annotation_consulted_first :
  let consulted name := CallMarkersGet name "shallowcopy:generate" in
  @eachType Example.goTypes 5 (Example.pkg []) [] Example.session emptyState =
    Returns [] (logged emptyState [consulted "session"; CallIsExported "session"]) /\
  callIndex (consulted "session") [consulted "session"; CallIsExported "session"] = Some 0 /\
  callIndex (CallIsExported "session") [consulted "session"; CallIsExported "session"] = Some 1 /\
  @eachType Example.goTypes 5 (Example.pkg []) [] Example.plain emptyState =
    Returns [] (logged emptyState [consulted "Plain"]) /\
  callIndex (CallIsExported "Plain") [consulted "Plain"] = None.
Proof. repeat split. Qed.

Lemma export_checked_after_annotation_witness :
  let consulted name := CallMarkersGet name "shallowcopy:generate" in
  @eachType Example.goTypes 5 (Example.pkg []) [] Example.off emptyState =
    Returns [] (logged emptyState [consulted "Off"]) /\
  @eachType Example.goTypes 5 (Example.pkg []) [] Example.session emptyState =
    Returns [] (logged emptyState [consulted "session"; CallIsExported "session"]).
Proof.
  split.
  - apply (proj1 (@export_checked_after_annotation Example.goTypes 5 (Example.pkg [])
                    [] Example.off emptyState)).
    right. reflexivity.
  - apply (proj2 (@export_checked_after_annotation Example.goTypes 5 (Example.pkg [])
                    [] Example.session emptyState)); reflexivity.
Defined.

(** ** Text inside text *)

Lemma string_app_assoc (a b c : string) : ((a ++ b) ++ c = a ++ (b ++ c))%string.
Proof.
  induction a as [|x a IH]; [reflexivity|].
  change (String x ((a ++ b) ++ c) = String x (a ++ (b ++ c)))%string.
  rewrite IH. reflexivity.
Qed.

Lemma substring_all (text : string) : String.substring 0 (String.length text) text = text.
Proof. induction text as [|c text IH]; simpl; [reflexivity|]. rewrite IH. reflexivity. Qed.

Lemma substring_after (before text : string) :
  String.substring (String.length before) (String.length text) (before ++ text) = text.
Proof.
  induction before as [|c before IH]; [apply substring_all|].
  change (String.substring (String.length before) (String.length text) (before ++ text)
          = text). exact IH.
Qed.

(** A text occurs in every text that ends with it. *)
Lemma contains_suffix (before text : string) : contains text (before ++ text) = true.
Proof.
  unfold contains.
  destruct (String.index 0 text (before ++ text)) as [m|] eqn:Hindex; [reflexivity|].
  exfalso. destruct text as [|c text].
  - apply String.index_correct4 in Hindex. lia.
  - apply (String.index_correct3 0 (String.length before) _ _ Hindex);
      [discriminate|lia|apply substring_after].
Qed.

Section FormatFailure.
Context `{GoTypes} `{Toolchain}.

(** C8.  If the text generated for a package (the methods of all its
    specifications, as printed) fails the formatting step, emission for the
    package is given up: [Generate] returns, no file is written, and exactly
    one error is recorded for the package, whose message holds the
    formatter's message and then the whole unformatted text. *)
Theorem format_failure_keeps_raw_text (visit : nat -> jen.Dict -> jen.Dict)
    (root : loader.Package) (structs : list copyStructs) (s : State)
    (source : string) (err : loader.error) :
  structs <> [] ->
  (forall i d, visit i d ≡ₚ d) ->
  jen_source {| jen.PackageName := loader.Name root;
                jen.Decls := map printedFunc structs |} = inr source ->
  format_Source source = inl err ->
  let diagnostic :=
    loader.Errorf ("Error " ++ loader.Error err ++ " while formatting source:"
                   ++ newline ++ source) in
  emitFile visit root structs s =
    Returns false {| Errors := Errors s ++ [(loader.ID root, diagnostic)];
                     Files := Files s; Calls := Calls s |} /\
  contains source (loader.Error diagnostic) = true.
Proof.
  intros Hsome Hvisit Hsource Hformat diagnostic. subst diagnostic. split.
  - unfold emitFile. destruct structs as [|c structs]; [contradiction|].
    change (Nat.ltb 0 (List.length (c :: structs))) with true. cbv iota.
    rewrite (Render_spec visit) by assumption.
    unfold jen_print. rewrite Hsource, Hformat. reflexivity.
  - cbn [loader.Error].
    rewrite <- !string_app_assoc. apply contains_suffix.
Qed.
End FormatFailure.

Lemma format_failure_keeps_raw_text_witness :
  let source := "package example func (o User) ShallowCopy() User { return User{ID: o.ID, Name: o.Name} " in
  let diagnostic :=
    loader.Errorf ("Error " ++ loader.Error Example.unbalanced
                   ++ " while formatting source:" ++ newline ++ source) in
  @emitFile Example.goTypes Example.faulty Example.reversed (Example.pkg [])
     [{| StructName := "User"; Fields := ["ID"; "Name"] |}] emptyState =
    Returns false {| Errors := [] ++ [("example.com/demo/example", diagnostic)];
                     Files := []; Calls := [] |} /\
  contains source (loader.Error diagnostic) = true.
Proof.
  apply (@format_failure_keeps_raw_text Example.goTypes Example.faulty Example.reversed
           (Example.pkg []) [{| StructName := "User"; Fields := ["ID"; "Name"] |}]
           emptyState
           "package example func (o User) ShallowCopy() User { return User{ID: o.ID, Name: o.Name} "
           Example.unbalanced).
  - discriminate.
  - intros i d. symmetry. apply Permutation_rev.
  - reflexivity.
  - reflexivity.
Defined.

Lemma alias_walk_terminates_witness :
  @shouldBeCopied Example.goTypes 1 (Example.pkg []) Example.count emptyState <> OutOfFuel /\
  @shouldBeCopied Example.goTypes 5 (Example.pkg []) Example.count emptyState =
  @shouldBeCopied Example.goTypes 1 (Example.pkg []) Example.count emptyState.
Proof.
  apply (@alias_walk_terminates Example.goTypes 5 1 (Example.pkg [])
           Example.count emptyState).
  - intros T HT. injection HT as <-. reflexivity.
  - lia.
Defined.

(** Without a fixed point the walk does not end: in the universe whose two
    basic types name each other as underlying type, no fuel is enough. *)
Lemma alias_walk_diverges_on_cycle (fuel : nat) :
  @shouldBeCopied Cyclic.goTypes fuel Cyclic.pkg Cyclic.named emptyState = OutOfFuel.
Proof.
  assert (forall n s,
            @aliasWalk Cyclic.goTypes n Cyclic.Ping Cyclic.Pong s = OutOfFuel /\
            @aliasWalk Cyclic.goTypes n Cyclic.Pong Cyclic.Ping s = OutOfFuel) as Hloop.
  { induction n as [|n IH]; intros s; [split; reflexivity|].
    destruct (IH s) as [Hping Hpong]. split; [exact Hpong|exact Hping]. }
  rewrite (@shouldBeCopied_named Cyclic.goTypes fuel Cyclic.pkg Cyclic.named
             Cyclic.Named emptyState eq_refl eq_refl eq_refl).
  destruct fuel as [|fuel]; [reflexivity|].
  cbn. unfold mbind, M_bind. cbn. rewrite (proj1 (Hloop fuel _)). reflexivity.
Qed.

Lemma disabled_type_skipped_witness :
  let consulted name := CallMarkersGet name "shallowcopy:generate" in
  (@enabledOnType Example.plain emptyState =
     Returns false (logged emptyState [consulted "Plain"]) /\
   @eachType Example.goTypes 5 (Example.pkg []) [] Example.plain emptyState =
     Returns [] (logged emptyState [consulted "Plain"])) /\
  (@enabledOnType Example.off emptyState =
     Returns false (logged emptyState [consulted "Off"]) /\
   @eachType Example.goTypes 5 (Example.pkg []) [] Example.off emptyState =
     Returns [] (logged emptyState [consulted "Off"])) /\
  markers.Get (markers.Markers Example.user) enableTypeMarker_Name
    = Some (markers.BoolValue true).
Proof.
  split; [|split].
  - apply (proj1 (@disabled_type_skipped Example.goTypes 5 (Example.pkg [])
                    [] Example.plain emptyState)).
    left. reflexivity.
  - apply (proj1 (@disabled_type_skipped Example.goTypes 5 (Example.pkg [])
                    [] Example.off emptyState)).
    right. reflexivity.
  - apply (proj2 (@disabled_type_skipped Example.goTypes 5 (Example.pkg [])
                    [] Example.user emptyState)
             [{| StructName := "User"; Fields := ["ID"; "Name"] |}]
             (logged emptyState [CallMarkersGet "User" "shallowcopy:generate";
                                 CallIsExported "User"; CallTypeOf "User";
                                 CallTypeOf "User"])).
    + reflexivity.
    + discriminate.
Defined.

(** * Further properties of the classifier *)

(** Unfolds the monad in a hypothesis. *)
Ltac run_in H :=
  unfold Markers_Get, ast_IsExported, TypesInfo_TypeOf, AddError, logCall,
    lift, panic, outOfFuel, logged in H;
  unfold mbind, M_bind, mret, M_ret in H; simpl in H.

Section ClassifierCases.
Context `{GoTypes}.

(** The loop never touches the state. *)
Lemma aliasWalk_state (fuel : nat) : forall (lastType u : Ty) (s s' : State) (e : LoopExit),
  aliasWalk fuel lastType u s = Returns e s' -> s' = s.
Proof.
  induction fuel as [|fuel IH]; intros lastType u s s' e; rewrite aliasWalk_eq;
    (destruct (decide (u = lastType)); [intros [= _ <-]; reflexivity|]).
  - discriminate.
  - intros Hrun. run_in Hrun.
    destruct (hasShallowCopyMethod u) as [[|]|msg]; simpl in Hrun;
      [injection Hrun as _ <-; reflexivity| |discriminate].
    destruct (isBasic u); simpl in Hrun;
      [exact (IH _ _ _ _ _ Hrun)|injection Hrun as _ <-; reflexivity].
Qed.

(** When the loop is left at its condition, the last type is the one it
    started from or a basic type. *)
Lemma aliasWalk_done (fuel : nat) : forall (lastType u l : Ty) (s s' : State),
  aliasWalk fuel lastType u s = Returns (Done l) s' ->
  l = lastType \/ isBasic l = true.
Proof.
  induction fuel as [|fuel IH]; intros lastType u l s s'; rewrite aliasWalk_eq;
    (destruct (decide (u = lastType)); [intros [= <- _]; left; reflexivity|]).
  - discriminate.
  - intros Hrun. run_in Hrun.
    destruct (hasShallowCopyMethod u) as [[|]|msg]; simpl in Hrun; try discriminate.
    destruct (isBasic u) eqn:Hbasic; simpl in Hrun; [|discriminate].
    destruct (IH _ _ _ _ _ Hrun) as [-> | Hl]; right; assumption.
Qed.

(** When the loop returns true, some type of the chain has a manual
    ShallowCopy or is not basic. *)
Lemma aliasWalk_true (fuel : nat) : forall (lastType u : Ty) (s s' : State),
  aliasWalk fuel lastType u s = Returns ReturnTrue s' ->
  exists k, hasShallowCopyMethod (chain k u) = Ok true \/ isBasic (chain k u) = false.
Proof.
  induction fuel as [|fuel IH]; intros lastType u s s'; rewrite aliasWalk_eq;
    (destruct (decide (u = lastType)); [discriminate|]).
  - discriminate.
  - intros Hrun. run_in Hrun.
    destruct (hasShallowCopyMethod u) as [[|]|msg] eqn:Hmanual; simpl in Hrun;
      [exists 0; left; exact Hmanual| |discriminate].
    destruct (isBasic u) eqn:Hbasic; simpl in Hrun;
      [|exists 0; right; exact Hbasic].
    destruct (IH _ _ _ _ Hrun) as [k Hk]. exists (S k). rewrite chain_S. exact Hk.
Qed.

Lemma shouldBeCopied_invalid (fuel : nat) (pkg : loader.Package)
    (info : markers.TypeInfo) (s : State) :
  IsExported (markers.Name info) = true ->
  loader.TypeOf pkg (ast.Name (markers.RawSpec info)) = Some Typ_Invalid ->
  shouldBeCopied fuel pkg info s =
  Returns false
    {| Errors := Errors s ++
         [(loader.ID pkg,
           loader.ErrFromNode (loader.Errorf ("unknown type " ++ markers.Name info))
                              (ast.Pos (markers.RawSpec info)))];
       Files := Files s;
       Calls := Calls s ++
         [CallIsExported (markers.Name info);
          CallTypeOf (ast.IdentName (ast.Name (markers.RawSpec info)))] |}.
Proof.
  intros Hname Htype. unfold shouldBeCopied. run. rewrite Hname, Htype. simpl.
  destruct (decide (Some Typ_Invalid = Some Typ_Invalid)); [|contradiction].
  simpl. rewrite <- app_assoc. reflexivity.
Qed.

Lemma shouldBeCopied_not_named (fuel : nat) (pkg : loader.Package)
    (info : markers.TypeInfo) (s : State) :
  IsExported (markers.Name info) = true ->
  match loader.TypeOf pkg (ast.Name (markers.RawSpec info)) with
  | Some T => T <> Typ_Invalid /\ isNamed T = false
  | None => True
  end ->
  exists msg, shouldBeCopied fuel pkg info s = Panics msg.
Proof.
  intros Hname Htype. unfold shouldBeCopied. run. rewrite Hname. simpl.
  destruct (loader.TypeOf pkg _) as [T|].
  - destruct Htype as [Hvalid Hnamed].
    destruct (decide (Some T = Some Typ_Invalid)) as [[= ->]|_]; [contradiction|].
    rewrite Hnamed. eexists. reflexivity.
  - destruct (decide (None = Some Typ_Invalid)); [discriminate|].
    eexists. reflexivity.
Qed.
End ClassifierCases.

Section ClassifierProperties.
Context `{GoTypes}.

(** Every way in which [shouldBeCopied] returns. *)
Lemma shouldBeCopied_cases (fuel : nat) (pkg : loader.Package)
    (info : markers.TypeInfo) (s s' : State) (b : bool) :
  shouldBeCopied fuel pkg info s = Returns b s' ->
  let called := [CallIsExported (markers.Name info);
                 CallTypeOf (ast.IdentName (ast.Name (markers.RawSpec info)))] in
  (IsExported (markers.Name info) = false /\ b = false /\
   s' = logged s [CallIsExported (markers.Name info)]) \/
  (IsExported (markers.Name info) = true /\
   loader.TypeOf pkg (ast.Name (markers.RawSpec info)) = Some Typ_Invalid /\
   b = false /\
   s' = {| Errors := Errors s ++
             [(loader.ID pkg,
               loader.ErrFromNode (loader.Errorf ("unknown type " ++ markers.Name info))
                                  (ast.Pos (markers.RawSpec info)))];
           Files := Files s; Calls := Calls s ++ called |}) \/
  (IsExported (markers.Name info) = true /\
   exists T,
     loader.TypeOf pkg (ast.Name (markers.RawSpec info)) = Some T /\
     isNamed T = true /\ s' = logged s called /\
     (b = true ->
      isPointer (Underlying T) = false /\
      (hasShallowCopyMethod T = Ok true \/
       aliasWalk fuel T (Underlying T) (logged s called) =
         Returns ReturnTrue (logged s called)) /\
      exists k, hasShallowCopyMethod (chain k T) = Ok true \/
                (1 <= k /\ isBasic (chain k T) = false))).
Proof.
  intros Hrun called. subst called.
  destruct (IsExported (markers.Name info)) eqn:Hname.
  2:{ rewrite shouldBeCopied_unexported in Hrun by assumption.
      injection Hrun as <- <-. left. auto. }
  right.
  destruct (loader.TypeOf pkg (ast.Name (markers.RawSpec info))) as [T|] eqn:Htype.
  2:{ destruct (shouldBeCopied_not_named fuel pkg info s Hname) as [msg Hpanic].
      - rewrite Htype. exact I.
      - congruence. }
  destruct (decide (T = Typ_Invalid)) as [->|Hvalid].
  { rewrite shouldBeCopied_invalid in Hrun by assumption.
    injection Hrun as <- <-. left. auto. }
  destruct (isNamed T) eqn:Hnamed.
  2:{ destruct (shouldBeCopied_not_named fuel pkg info s Hname) as [msg Hpanic].
      - rewrite Htype. auto.
      - congruence. }
  right. split; [reflexivity|]. exists T. split; [reflexivity|]. split; [exact Hnamed|].
  rewrite (shouldBeCopied_named fuel pkg info T s Hname Htype Hnamed) in Hrun.
  simpl in Hrun.
  destruct (isPointer (Underlying T)).
  { injection Hrun as <- <-. split; [reflexivity|discriminate]. }
  destruct (hasShallowCopyMethod T) as [[|]|msg] eqn:Hself; [| |discriminate].
  { injection Hrun as <- <-. split; [reflexivity|]. intros _.
    split; [reflexivity|]. split; [left; reflexivity|]. exists 0. left. exact Hself. }
  destruct (aliasWalk fuel T (Underlying T) _) as [[|l] s1|msg|] eqn:Hwalk;
    try discriminate.
  - injection Hrun as <- <-. pose proof (aliasWalk_state _ _ _ _ _ _ Hwalk) as ->.
    split; [reflexivity|]. intros _. split; [reflexivity|].
    split; [right; first [exact Hwalk|reflexivity]|].
    destruct (aliasWalk_true _ _ _ _ _ Hwalk) as [k Hk].
    exists (S k). rewrite chain_S. destruct Hk as [Hk|Hk]; [left; exact Hk|].
    right. split; [lia|exact Hk].
  - injection Hrun as <- <-. rewrite (aliasWalk_state _ _ _ _ _ _ Hwalk).
    split; [reflexivity|]. intros Hstruct. exfalso.
    destruct (aliasWalk_done _ _ _ _ _ _ Hwalk) as [-> | Hl];
      unfold isStruct, isNamed, isBasic in *.
    + destruct (view T); discriminate.
    + destruct (view l); discriminate.
Qed.

(** X1.  The manual-method test answers true exactly for a type on which
    the lookup of ShallowCopy finds, at index depth one, a function with no
    parameter and exactly one result. *)
Theorem manual_test_exact (t : Ty) :
  hasShallowCopyMethod t = Ok true <-> DeclaresShallowCopy t.
Proof.
  split; [apply hasShallowCopyMethod_true|apply hasShallowCopyMethod_declares].
Qed.

(** X2.  The manual-method test panics exactly when the lookup finds, at
    index depth one, an object that is not a function (a field of another
    type, say).  In particular a member found through embedding (any other
    index depth) never makes it panic. *)
Theorem manual_test_panics_exactly (t : Ty) :
  (exists msg, hasShallowCopyMethod t = Panic msg) <->
  (exists obj i,
     LookupFieldOrMethod t "ShallowCopy" = (Some obj, [i]) /\
     forall params results, view obj <> types.Signature params results).
Proof.
  unfold hasShallowCopyMethod.
  destruct (LookupFieldOrMethod t "ShallowCopy") as [obj ind]. split.
  - intros [msg Hpanic].
    destruct ind as [|i [|i' ind]]; simpl in Hpanic; try discriminate.
    destruct obj as [obj|]; [|discriminate].
    exists obj, i. split; [reflexivity|]. intros params results Hview.
    rewrite Hview in Hpanic.
    destruct (bool_decide _ && _); [discriminate|].
    destruct (bool_decide _ || _); discriminate.
  - intros (obj' & i & [= -> ->] & Hview). simpl.
    destruct (view obj') as [| |fields| |params results|] eqn:Hobj;
      try (eexists; reflexivity).
    exfalso. exact (Hview params results eq_refl).
Qed.

(** X3.  [shouldBeCopied] returns true only for an exported name that the
    type checker resolves to a named type whose underlying type is not a
    pointer, and only because some type of the chain has a manual
    ShallowCopy or some type after the first is not basic.  The struct test
    after the loop never makes it true: whenever the loop is left at its
    condition the last type is not a struct, and a true verdict is always
    the one returned for the manual method of the declared type or the one
    returned from inside the loop.  No error is added and no file is
    touched. *)
Theorem eligible_only_if (fuel : nat) (pkg : loader.Package)
    (info : markers.TypeInfo) (s s' : State) :
  (forall T l s1 s2,
     view T = types.Named ->
     aliasWalk fuel T (Underlying T) s1 = Returns (Done l) s2 ->
     isStruct l = false) /\
  (shouldBeCopied fuel pkg info s = Returns true s' ->
   IsExported (markers.Name info) = true /\
   Errors s' = Errors s /\ Files s' = Files s /\
   exists T k,
     loader.TypeOf pkg (ast.Name (markers.RawSpec info)) = Some T /\
     view T = types.Named /\
     view (Underlying T) <> types.Pointer /\
     (hasShallowCopyMethod T = Ok true \/
      aliasWalk fuel T (Underlying T) s' = Returns ReturnTrue s') /\
     (DeclaresShallowCopy (chain k T) \/
      (1 <= k /\ view (chain k T) <> types.Basic))).
Proof.
  split.
  { intros T l s1 s2 Hnamed Hwalk.
    destruct (aliasWalk_done _ _ _ _ _ _ Hwalk) as [-> | Hl];
      unfold isStruct, isBasic in *.
    - rewrite Hnamed. reflexivity.
    - destruct (view l); try discriminate; reflexivity. }
  intros Hrun.
  destruct (shouldBeCopied_cases _ _ _ _ _ _ Hrun)
    as [(_ & Hb & _)|[(_ & _ & Hb & _)|(Hname & T & Htype & Hnamed & -> & Hwhy)]];
    try discriminate.
  destruct (Hwhy eq_refl) as (Hptr & Hfrom & k & Hk).
  split; [exact Hname|]. split; [reflexivity|]. split; [reflexivity|].
  exists T, k. split; [exact Htype|].
  split; [unfold isNamed in Hnamed; destruct (view T); congruence|].
  split; [unfold isPointer in Hptr; destruct (view (Underlying T)); congruence|].
  split; [exact Hfrom|].
  destruct Hk as [Hk|[Hk Hbasic]]; [left; apply hasShallowCopyMethod_true; exact Hk|].
  right. split; [exact Hk|].
  unfold isBasic in Hbasic. destruct (view (chain k T)); congruence.
Qed.

(** X4.  Where the underlying type [U] of a named type is not itself named
    and is its own underlying type (as go/types has it), the verdict for an
    exported declaration is a table: with a pointer for [U] it is false;
    otherwise it is true exactly if the declared type or [U] has a manual
    ShallowCopy, or [U] is not basic.  One round of the loop is enough. *)
Theorem classification_table (fuel : nat) (pkg : loader.Package)
    (info : markers.TypeInfo) (T : Ty) (s : State) (onT onU : bool) :
  IsExported (markers.Name info) = true ->
  loader.TypeOf pkg (ast.Name (markers.RawSpec info)) = Some T ->
  view T = types.Named ->
  view (Underlying T) <> types.Named ->
  Underlying (Underlying T) = Underlying T ->
  hasShallowCopyMethod T = Ok onT ->
  hasShallowCopyMethod (Underlying T) = Ok onU ->
  1 <= fuel ->
  shouldBeCopied fuel pkg info s =
  Returns (negb (isPointer (Underlying T)) &&
           (onT || onU || negb (isBasic (Underlying T))))
          (logged s [CallIsExported (markers.Name info);
                     CallTypeOf (ast.IdentName (ast.Name (markers.RawSpec info)))]).
Proof.
  intros Hname Htype Hnamed Hunnamed Hidem HonT HonU Hfuel.
  rewrite (shouldBeCopied_named fuel pkg info T s Hname Htype)
    by (unfold isNamed; rewrite Hnamed; reflexivity).
  simpl. destruct (isPointer (Underlying T)); [reflexivity|].
  rewrite HonT. destruct onT; [reflexivity|]. simpl.
  destruct fuel as [|fuel]; [lia|].
  rewrite aliasWalk_eq.
  destruct (decide (Underlying T = T)) as [Hfix|_];
    [rewrite Hfix in Hunnamed; contradiction|].
  run. rewrite HonU. destruct onU; [reflexivity|]. simpl.
  destruct (isBasic (Underlying T)) eqn:Hbasic; [|reflexivity]. simpl.
  rewrite aliasWalk_eq, Hidem.
  destruct (decide (Underlying T = Underlying T)); [|contradiction].
  unfold mret, M_ret. unfold isStruct, isBasic in *.
  destruct (view (Underlying T)); try discriminate. reflexivity.
Qed.

(** The first round of the loop on a type that is not basic. *)
Lemma shouldBeCopied_non_basic (fuel : nat) (pkg : loader.Package)
    (info : markers.TypeInfo) (T : Ty) (s : State) :
  IsExported (markers.Name info) = true ->
  loader.TypeOf pkg (ast.Name (markers.RawSpec info)) = Some T ->
  view T = types.Named ->
  Underlying T <> T ->
  view (Underlying T) <> types.Pointer ->
  view (Underlying T) <> types.Basic ->
  (forall msg, hasShallowCopyMethod T <> Panic msg) ->
  (forall msg, hasShallowCopyMethod (Underlying T) <> Panic msg) ->
  1 <= fuel ->
  shouldBeCopied fuel pkg info s =
  Returns true (logged s [CallIsExported (markers.Name info);
                          CallTypeOf (ast.IdentName (ast.Name (markers.RawSpec info)))]).
Proof.
  intros Hname Htype Hnamed Hmove Hptr Hbasic HsafeT HsafeU Hfuel.
  rewrite (shouldBeCopied_named fuel pkg info T s Hname Htype)
    by (unfold isNamed; rewrite Hnamed; reflexivity).
  assert (isPointer (Underlying T) = false) as ->.
  { unfold isPointer. destruct (view (Underlying T)); congruence. }
  simpl. destruct (hasShallowCopyMethod T) as [[|]|msg] eqn:HonT;
    [reflexivity| |exfalso; exact (HsafeT msg eq_refl)].
  destruct fuel as [|fuel]; [lia|].
  rewrite aliasWalk_eq. destruct (decide (Underlying T = T)); [contradiction|].
  run. destruct (hasShallowCopyMethod (Underlying T)) as [[|]|msg] eqn:HonU;
    [reflexivity| |exfalso; exact (HsafeU msg eq_refl)].
  simpl. assert (isBasic (Underlying T) = false) as ->.
  { unfold isBasic. destruct (view (Underlying T)); congruence. }
  reflexivity.
Qed.

(** X5.  An exported named type whose underlying type is another type that
    is neither a pointer nor basic (a struct, a slice, a map, an
    interface...) is to be copied, whatever follows in the chain, provided
    the two lookups on the way do not panic. *)
Theorem non_basic_alias_eligible (fuel : nat) (pkg : loader.Package)
    (info : markers.TypeInfo) (T : Ty) (s : State) :
  IsExported (markers.Name info) = true ->
  loader.TypeOf pkg (ast.Name (markers.RawSpec info)) = Some T ->
  view T = types.Named ->
  Underlying T <> T ->
  view (Underlying T) <> types.Pointer ->
  view (Underlying T) <> types.Basic ->
  (forall msg, hasShallowCopyMethod T <> Panic msg) ->
  (forall msg, hasShallowCopyMethod (Underlying T) <> Panic msg) ->
  1 <= fuel ->
  shouldBeCopied fuel pkg info s =
  Returns true (logged s [CallIsExported (markers.Name info);
                          CallTypeOf (ast.IdentName (ast.Name (markers.RawSpec info)))]).
Proof. apply shouldBeCopied_non_basic. Qed.

(** X6.  An error is added by [shouldBeCopied] in one case only: the name
    is exported and the type checker answers with the invalid type.  Then
    the verdict is false and the error is "unknown type" followed by the
    name, at the position of the declaration.  In every other case in which
    it returns, the errors are as before; the files are always as before. *)
Theorem classifier_errors (fuel : nat) (pkg : loader.Package)
    (info : markers.TypeInfo) (s s' : State) (b : bool) :
  shouldBeCopied fuel pkg info s = Returns b s' ->
  Files s' = Files s /\
  ((IsExported (markers.Name info) = true /\
    loader.TypeOf pkg (ast.Name (markers.RawSpec info)) = Some Typ_Invalid) ->
   b = false /\
   Errors s' = Errors s ++
     [(loader.ID pkg,
       loader.ErrFromNode (loader.Errorf ("unknown type " ++ markers.Name info))
                          (ast.Pos (markers.RawSpec info)))]) /\
  (~ (IsExported (markers.Name info) = true /\
      loader.TypeOf pkg (ast.Name (markers.RawSpec info)) = Some Typ_Invalid) ->
   Errors s' = Errors s).
Proof.
  intros Hrun.
  destruct (shouldBeCopied_cases _ _ _ _ _ _ Hrun)
    as [(Hname & -> & ->)|[(Hname & Htype & -> & ->)
       |(Hname & T & Htype & Hnamed & -> & _)]]; simpl.
  - split; [reflexivity|]. split; [intros [? _]; congruence|reflexivity].
  - split; [reflexivity|]. split; [auto|]. intros Hnot. exfalso. auto.
  - split; [reflexivity|]. split; [|reflexivity].
    intros [_ Hinv]. exfalso. rewrite Htype in Hinv.
    exact (named_not_invalid T Hnamed Hinv).
Qed.

(** X7.  For an exported name that the type checker does not know, or
    resolves to a valid type that is not a named type (an alias declaration
    denotes the aliased type), [shouldBeCopied] panics: the type assertion
    on line 166 has no second result. *)
Theorem classifier_panics_on_unnamed (fuel : nat) (pkg : loader.Package)
    (info : markers.TypeInfo) (s : State) :
  IsExported (markers.Name info) = true ->
  (loader.TypeOf pkg (ast.Name (markers.RawSpec info)) = None \/
   exists T, loader.TypeOf pkg (ast.Name (markers.RawSpec info)) = Some T /\
             T <> Typ_Invalid /\ view T <> types.Named) ->
  exists msg, shouldBeCopied fuel pkg info s = Panics msg.
Proof.
  intros Hname Htype. apply shouldBeCopied_not_named; [exact Hname|].
  destruct Htype as [-> | (T & -> & Hvalid & Hview)]; [exact I|].
  split; [exact Hvalid|]. unfold isNamed. destruct (view T); congruence.
Qed.
End ClassifierProperties.

Lemma eligible_only_if_witness :
  let s' := logged emptyState [CallIsExported "User"; CallTypeOf "User"] in
  Example.IsExported "User" = true /\
  Errors s' = [] /\ Files s' = [] /\
  exists T k,
    Example.TypeOf (ast.Name (markers.RawSpec Example.user)) = Some T /\
    Example.view T = types.Named /\
    Example.view (Example.Underlying T) <> types.Pointer /\
    (@hasShallowCopyMethod Example.goTypes T = Ok true \/
     @aliasWalk Example.goTypes 1 T (Example.Underlying T) s' = Returns ReturnTrue s') /\
    (@DeclaresShallowCopy Example.goTypes (@chain Example.goTypes k T) \/
     (1 <= k /\ Example.view (@chain Example.goTypes k T) <> types.Basic)).
Proof.
  apply (proj2 (@eligible_only_if Example.goTypes 1 (Example.pkg []) Example.user emptyState
                  (logged emptyState [CallIsExported "User"; CallTypeOf "User"]))).
  reflexivity.
Defined.

Lemma classification_table_witness :
  @shouldBeCopied Example.goTypes 1 (Example.pkg []) Example.user emptyState =
    Returns true (logged emptyState [CallIsExported "User"; CallTypeOf "User"]) /\
  @shouldBeCopied Example.goTypes 1 (Example.pkg []) Example.count emptyState =
    Returns false (logged emptyState [CallIsExported "Count"; CallTypeOf "Count"]) /\
  @shouldBeCopied Example.goTypes 1 (Example.pkg []) Example.celsius emptyState =
    Returns true (logged emptyState [CallIsExported "Celsius"; CallTypeOf "Celsius"]).
Proof.
  split; [|split].
  - apply (@classification_table Example.goTypes 1 (Example.pkg []) Example.user
             Example.User emptyState false false);
      try reflexivity; try discriminate; lia.
  - apply (@classification_table Example.goTypes 1 (Example.pkg []) Example.count
             Example.Count emptyState false false);
      try reflexivity; try discriminate; lia.
  - apply (@classification_table Example.goTypes 1 (Example.pkg []) Example.celsius
             Example.Celsius emptyState true false);
      try reflexivity; try discriminate; lia.
Defined.

Lemma non_basic_alias_eligible_witness :
  Aliases.view (Aliases.Underlying Aliases.Names) = types.Other /\
  @shouldBeCopied Aliases.goTypes 1 (Aliases.pkg []) Aliases.names emptyState =
  Returns true (logged emptyState [CallIsExported "Names"; CallTypeOf "Names"]).
Proof.
  split; [reflexivity|].
  apply (@non_basic_alias_eligible Aliases.goTypes 1 (Aliases.pkg []) Aliases.names
           Aliases.Names emptyState);
    try reflexivity; try discriminate; lia.
Defined.

Lemma classifier_errors_witness :
  let s' := {| Errors := [("example.com/demo/aliases",
                           loader.ErrFromNode (loader.Errorf "unknown type Broken") 30)];
               Files := [];
               Calls := [CallIsExported "Broken"; CallTypeOf "Broken"] |} in
  @shouldBeCopied Aliases.goTypes 1 (Aliases.pkg []) Aliases.broken emptyState
    = Returns false s' /\
  Files s' = [] /\
  ((Example.IsExported "Broken" = true /\
    Aliases.TypeOf (ast.Name (markers.RawSpec Aliases.broken)) = Some Aliases.Invalid) ->
   false = false /\
   Errors s' =
     [] ++ [("example.com/demo/aliases",
             loader.ErrFromNode (loader.Errorf "unknown type Broken") 30)]) /\
  (~ (Example.IsExported "Broken" = true /\
      Aliases.TypeOf (ast.Name (markers.RawSpec Aliases.broken)) = Some Aliases.Invalid) ->
   Errors s' = []).
Proof.
  split; [reflexivity|].
  apply (@classifier_errors Aliases.goTypes 1 (Aliases.pkg []) Aliases.broken emptyState
           {| Errors := [("example.com/demo/aliases",
                          loader.ErrFromNode (loader.Errorf "unknown type Broken") 30)];
              Files := [];
              Calls := [CallIsExported "Broken"; CallTypeOf "Broken"] |} false).
  reflexivity.
Defined.

Lemma classifier_panics_on_unnamed_witness :
  (exists msg, @shouldBeCopied Aliases.goTypes 1 (Aliases.pkg []) Aliases.missing emptyState
               = Panics msg) /\
  (exists msg, @shouldBeCopied Aliases.goTypes 1 (Aliases.pkg []) Aliases.alias emptyState
               = Panics msg).
Proof.
  split.
  - apply (@classifier_panics_on_unnamed Aliases.goTypes 1 (Aliases.pkg [])
             Aliases.missing emptyState); [reflexivity|].
    left. reflexivity.
  - apply (@classifier_panics_on_unnamed Aliases.goTypes 1 (Aliases.pkg [])
             Aliases.alias emptyState); [reflexivity|].
    right. exists Aliases.Int. repeat split; discriminate.
Defined.

(** * Further properties of the callback *)

Section CallbackProperties.
Context `{GoTypes}.

(** What the callback does after [shouldBeCopied] has said yes. *)
Lemma eachType_copied (fuel : nat) (root : loader.Package)
    (structs : list copyStructs) (info : markers.TypeInfo) (T : Ty) (s s1 : State) :
  markers.Get (markers.Markers info) enableTypeMarker_Name = Some (markers.BoolValue true) ->
  shouldBeCopied fuel root info
    (logged s [CallMarkersGet (markers.Name info) enableTypeMarker_Name]) = Returns true s1 ->
  loader.TypeOf root (ast.Name (markers.RawSpec info)) = Some T ->
  eachType fuel root structs info s =
  let s2 := logged s1 [CallTypeOf (ast.IdentName (ast.Name (markers.RawSpec info)))] in
  match view (Underlying T) with
  | types.Struct stype =>
    Returns (structs ++ [{| StructName := markers.Name info;
                            Fields := map types.VarName stype |}]) s2
  | _ =>
    Returns structs
      {| Errors := Errors s2 ++
           [(loader.ID root,
             loader.ErrFromNode (loader.Errorf (markers.Name info ++ " is not a struct type"))
                                (ast.Pos (markers.RawSpec info)))];
         Files := Files s2; Calls := Calls s2 |}
  end.
Proof.
  intros Hget Hcopied Htype.
  assert (T <> Typ_Invalid) as Hvalid.
  { intros ->.
    destruct (shouldBeCopied_cases _ _ _ _ _ _ Hcopied)
      as [(_ & Hb & _)|[(_ & _ & Hb & _)|(_ & T' & Htype' & Hnamed & _)]];
      try discriminate.
    rewrite Htype in Htype'. exact (named_not_invalid _ Hnamed (eq_sym Htype')). }
  unfold eachType. unfold mbind at 1. unfold M_bind.
  rewrite enabledOnType_spec, Hget. simpl.
  unfold mbind at 1. unfold M_bind. rewrite Hcopied. simpl.
  run. rewrite Htype.
  destruct (decide (Some T = Some Typ_Invalid)) as [[= ->]|_]; [contradiction|].
  simpl. destruct (view (Underlying T)); try reflexivity.
  rewrite fieldNames_spec. reflexivity.
Qed.

(** X8.  For an enabled, exported declaration of a named type whose
    underlying type is a struct, the callback collects one specification:
    the declared name with the names of all fields, exported or not, in
    declaration order.  It does so also when the type already has a manual
    ShallowCopy.  No error is added. *)
Theorem struct_collected (fuel : nat) (root : loader.Package)
    (structs : list copyStructs) (info : markers.TypeInfo) (T : Ty)
    (stype : list types.Var) (s : State) :
  markers.Get (markers.Markers info) enableTypeMarker_Name = Some (markers.BoolValue true) ->
  IsExported (markers.Name info) = true ->
  loader.TypeOf root (ast.Name (markers.RawSpec info)) = Some T ->
  view T = types.Named ->
  view (Underlying T) = types.Struct stype ->
  (forall msg, hasShallowCopyMethod T <> Panic msg) ->
  (forall msg, hasShallowCopyMethod (Underlying T) <> Panic msg) ->
  1 <= fuel ->
  eachType fuel root structs info s =
  Returns (structs ++ [{| StructName := markers.Name info;
                          Fields := map types.VarName stype |}])
          (logged s [CallMarkersGet (markers.Name info) enableTypeMarker_Name;
                     CallIsExported (markers.Name info);
                     CallTypeOf (ast.IdentName (ast.Name (markers.RawSpec info)));
                     CallTypeOf (ast.IdentName (ast.Name (markers.RawSpec info)))]).
Proof.
  intros Hget Hname Htype Hnamed Hstruct HsafeT HsafeU Hfuel.
  rewrite (eachType_copied fuel root structs info T s _ Hget
             (shouldBeCopied_non_basic fuel root info T _ Hname Htype Hnamed
                ltac:(intros Hfix; rewrite Hfix in Hstruct; congruence)
                ltac:(congruence) ltac:(congruence) HsafeT HsafeU Hfuel) Htype).
  rewrite Hstruct. unfold logged. simpl. rewrite <- !app_assoc. reflexivity.
Qed.

(** X9.  An enabled, exported declaration that [shouldBeCopied] accepts but
    whose underlying type is not a struct (a type with a manual ShallowCopy
    over a basic type, a named slice or map...) is reported: the callback
    collects nothing and adds the one error saying that the name is not a
    struct type, at the position of the declaration. *)
Theorem non_struct_reported (fuel : nat) (root : loader.Package)
    (structs : list copyStructs) (info : markers.TypeInfo) (T : Ty) (s : State) :
  markers.Get (markers.Markers info) enableTypeMarker_Name = Some (markers.BoolValue true) ->
  IsExported (markers.Name info) = true ->
  loader.TypeOf root (ast.Name (markers.RawSpec info)) = Some T ->
  view T = types.Named ->
  view (Underlying T) <> types.Pointer ->
  (forall stype, view (Underlying T) <> types.Struct stype) ->
  (DeclaresShallowCopy T \/
   (Underlying T <> T /\ view (Underlying T) <> types.Basic /\
    (forall msg, hasShallowCopyMethod T <> Panic msg) /\
    (forall msg, hasShallowCopyMethod (Underlying T) <> Panic msg) /\
    1 <= fuel)) ->
  eachType fuel root structs info s =
  Returns structs
    {| Errors := Errors s ++
         [(loader.ID root,
           loader.ErrFromNode (loader.Errorf (markers.Name info ++ " is not a struct type"))
                              (ast.Pos (markers.RawSpec info)))];
       Files := Files s;
       Calls := Calls s ++
         [CallMarkersGet (markers.Name info) enableTypeMarker_Name;
          CallIsExported (markers.Name info);
          CallTypeOf (ast.IdentName (ast.Name (markers.RawSpec info)));
          CallTypeOf (ast.IdentName (ast.Name (markers.RawSpec info)))] |}.
Proof.
  intros Hget Hname Htype Hnamed Hptr Hstruct Hwhy.
  assert (shouldBeCopied fuel root info
            (logged s [CallMarkersGet (markers.Name info) enableTypeMarker_Name]) =
          Returns true
            (logged (logged s [CallMarkersGet (markers.Name info) enableTypeMarker_Name])
               [CallIsExported (markers.Name info);
                CallTypeOf (ast.IdentName (ast.Name (markers.RawSpec info)))]))
    as Hcopied.
  { destruct Hwhy as [Hmanual|(Hmove & Hbasic & HsafeT & HsafeU & Hfuel)].
    - rewrite (shouldBeCopied_named fuel root info T _ Hname Htype)
        by (unfold isNamed; rewrite Hnamed; reflexivity).
      assert (isPointer (Underlying T) = false) as ->.
      { unfold isPointer. destruct (view (Underlying T)); congruence. }
      simpl. rewrite (hasShallowCopyMethod_declares _ Hmanual). reflexivity.
    - apply (shouldBeCopied_non_basic fuel root info T); assumption. }
  rewrite (eachType_copied fuel root structs info T s _ Hget Hcopied Htype).
  destruct (view (Underlying T)) as [| |stype| | |] eqn:Hview;
    try (exfalso; exact (Hstruct stype eq_refl));
    unfold logged; simpl; rewrite <- !app_assoc; reflexivity.
Qed.

(** X10.  For an enabled, exported declaration that the type checker answers
    with the invalid type, the callback collects nothing and the package
    gets exactly one error, "unknown type" and the name: the second test
    for the invalid type, in the callback itself, is never reached. *)
Theorem unresolved_type_reported_once (fuel : nat) (root : loader.Package)
    (structs : list copyStructs) (info : markers.TypeInfo) (s : State) :
  markers.Get (markers.Markers info) enableTypeMarker_Name = Some (markers.BoolValue true) ->
  IsExported (markers.Name info) = true ->
  loader.TypeOf root (ast.Name (markers.RawSpec info)) = Some Typ_Invalid ->
  eachType fuel root structs info s =
  Returns structs
    {| Errors := Errors s ++
         [(loader.ID root,
           loader.ErrFromNode (loader.Errorf ("unknown type " ++ markers.Name info))
                              (ast.Pos (markers.RawSpec info)))];
       Files := Files s;
       Calls := Calls s ++
         [CallMarkersGet (markers.Name info) enableTypeMarker_Name;
          CallIsExported (markers.Name info);
          CallTypeOf (ast.IdentName (ast.Name (markers.RawSpec info)))] |}.
Proof.
  intros Hget Hname Htype. unfold eachType. unfold mbind at 1. unfold M_bind.
  rewrite enabledOnType_spec, Hget. simpl.
  unfold mbind at 1. unfold M_bind.
  rewrite shouldBeCopied_invalid by assumption. simpl.
  unfold mret, M_ret. rewrite <- app_assoc. reflexivity.
Qed.

(** X11.  The specifications collected for a package come after those
    already there, in the order of the declarations, at most one for each
    declaration and under the declared name. *)
Theorem specs_follow_declarations (fuel : nat) (root : loader.Package)
    (infos : list markers.TypeInfo) :
  forall (structs structs' : list copyStructs) (s s' : State),
  eachTypes fuel root structs infos s = Returns structs' s' ->
  exists new,
    structs' = structs ++ new /\
    sublist (map StructName new) (map markers.Name infos).
Proof.
  induction infos as [|info infos IH]; intros structs structs' s s'; simpl.
  - intros [= <- _]. exists []. rewrite app_nil_r. split; [reflexivity|constructor].
  - unfold mbind, M_bind.
    destruct (eachType fuel root structs info s) as [structs1 s1|msg|] eqn:Hone;
      try discriminate.
    intros Hrest. destruct (IH _ _ _ _ Hrest) as (new & -> & Hsub).
    apply eachType_returns in Hone as [->|(_ & _ & T & stype & _ & _ & ->)].
    + exists new. split; [reflexivity|]. apply sublist_cons. exact Hsub.
    + exists ({| StructName := markers.Name info; Fields := fieldNames stype |} :: new).
      rewrite <- app_assoc. split; [reflexivity|]. simpl.
      apply sublist_skip. exact Hsub.
Qed.

End CallbackProperties.

(** * Further properties of emission and of the driver *)

Lemma app_singleton_neq {A} (l : list A) (x : A) : l ++ [x] <> l.
Proof.
  intros Heq. apply (f_equal (@List.length A)) in Heq.
  rewrite length_app in Heq. simpl in Heq. lia.
Qed.

Lemma grows_refl (owned : string * loader.error -> Prop) (ids : list string) (s : State) :
  grows owned ids s s.
Proof.
  exists [], [], []. rewrite !app_nil_r. repeat split; try constructor.
  apply sublist_nil_l.
Qed.

Lemma grows_trans (owned : string * loader.error -> Prop) (ids1 ids2 : list string)
    (s s1 s2 : State) :
  grows owned ids1 s s1 -> grows owned ids2 s1 s2 -> grows owned (ids1 ++ ids2) s s2.
Proof.
  intros (es1 & fs1 & cs1 & He1 & Hf1 & Hc1 & Hes1 & Hfs1 & Hn1)
         (es2 & fs2 & cs2 & He2 & Hf2 & Hc2 & Hes2 & Hfs2 & Hn2).
  exists (es1 ++ es2), (fs1 ++ fs2), (cs1 ++ cs2).
  rewrite He2, Hf2, Hc2, He1, Hf1, Hc1, !app_assoc.
  repeat split; try (apply Forall_app; split; assumption).
  rewrite map_app. apply sublist_app; assumption.
Qed.

Lemma grows_weaken (owned owned' : string * loader.error -> Prop) (ids ids' : list string)
    (s s' : State) :
  (forall e, owned e -> owned' e) -> sublist ids ids' ->
  grows owned ids s s' -> grows owned' ids' s s'.
Proof.
  intros Howned Hids (es & fs & cs & He & Hf & Hc & Hes & Hfs & Hsub).
  exists es, fs, cs. repeat split; try assumption.
  - eapply Forall_impl; [exact Hes|]. exact Howned.
  - etransitivity; [exact Hsub|exact Hids].
Qed.

Lemma owned_map (id : string) (errs : list loader.error) :
  Forall (fun e : string * loader.error => e.1 = id) (map (fun e => (id, e)) errs).
Proof.
  apply Forall_forall. intros e He.
  apply list_elem_of_fmap in He as (x & -> & _). reflexivity.
Qed.

(** More errors for the package and more calls, no file. *)
Lemma grows_errors (id : string) (s s' : State) (es : list (string * loader.error))
    (cs : list Call) :
  Errors s' = Errors s ++ es ->
  Files s' = Files s ->
  Calls s' = Calls s ++ cs ->
  Forall (fun e => e.1 = id) es ->
  grows (fun e => e.1 = id) [] s s'.
Proof.
  intros He Hf Hc Hes. exists es, [], cs. rewrite app_nil_r.
  repeat split; try assumption; constructor.
Qed.

(** Closes a goal [grows _ [] s s'] for a state [s'] that is written out. *)
Ltac grown :=
  eapply grows_errors;
  [ simpl; rewrite <- ?app_assoc; try reflexivity; symmetry; apply app_nil_r
  | reflexivity
  | simpl; rewrite <- ?app_assoc; try reflexivity; symmetry; apply app_nil_r
  | first [apply owned_map | repeat constructor] ].

Section DriverProperties.
Context `{GoTypes} `{Toolchain}.

Lemma shouldBeCopied_grows (fuel : nat) (pkg : loader.Package)
    (info : markers.TypeInfo) (s s' : State) (b : bool) :
  shouldBeCopied fuel pkg info s = Returns b s' ->
  grows (fun e => e.1 = loader.ID pkg) [] s s'.
Proof.
  intros Hrun.
  destruct (shouldBeCopied_cases _ _ _ _ _ _ Hrun)
    as [(_ & _ & ->)|[(_ & _ & _ & ->)|(_ & T & _ & _ & -> & _)]]; grown.
Qed.

Lemma eachType_grows (fuel : nat) (root : loader.Package)
    (structs structs' : list copyStructs) (info : markers.TypeInfo) (s s' : State) :
  eachType fuel root structs info s = Returns structs' s' ->
  grows (fun e => e.1 = loader.ID root) [] s s'.
Proof.
  unfold eachType. unfold mbind at 1. unfold M_bind. rewrite enabledOnType_spec.
  destruct (markers.Get _ _) as [[[|]|repr]|]; simpl; try discriminate;
    try (intros [= _ <-]; grown).
  unfold mbind at 1. unfold M_bind.
  destruct (shouldBeCopied fuel root info _) as [[|] s1|msg|] eqn:Hcopied;
    simpl; try discriminate.
  2:{ intros [= _ <-].
      apply (grows_trans _ [] [] _ (logged s [CallMarkersGet (markers.Name info)
                                                 enableTypeMarker_Name]));
        [grown|].
      exact (shouldBeCopied_grows _ _ _ _ _ _ Hcopied). }
  intros Hrest.
  apply (grows_trans _ [] [] _ s1).
  { apply (grows_trans _ [] [] _ (logged s [CallMarkersGet (markers.Name info)
                                               enableTypeMarker_Name]));
      [grown|].
    exact (shouldBeCopied_grows _ _ _ _ _ _ Hcopied). }
  run_in Hrest.
  destruct (loader.TypeOf root _) as [T|];
    destruct (decide (_ = Some Typ_Invalid)); simpl in Hrest; try discriminate;
    destruct (view (Underlying T)); injection Hrest as _ <-; grown.
Qed.

Lemma eachTypes_grows (fuel : nat) (root : loader.Package)
    (infos : list markers.TypeInfo) :
  forall (structs structs' : list copyStructs) (s s' : State),
  eachTypes fuel root structs infos s = Returns structs' s' ->
  grows (fun e => e.1 = loader.ID root) [] s s'.
Proof.
  induction infos as [|info infos IH]; intros structs structs' s s'; simpl.
  - intros [= _ <-]. apply grows_refl.
  - unfold mbind, M_bind.
    destruct (eachType fuel root structs info s) as [structs1 s1|msg|] eqn:Hone;
      try discriminate.
    intros Hrest. apply (grows_trans _ [] [] _ s1).
    + exact (eachType_grows _ _ _ _ _ _ _ Hone).
    + exact (IH _ _ _ _ Hrest).
Qed.
End DriverProperties.

Section OutputProperties.
Context `{GoTypes} `{Toolchain}.

(** [writeOut] in full. *)
Lemma writeOut_spec (root : loader.Package) (outBytes : string) (s : State) :
  writeOut root outBytes s =
  Returns tt
    {| Errors := Errors s ++
         map (fun e => (loader.ID root, e))
           match ctx_Open (loader.ID root) "zz_generated.shallowcopy.go",
                 (outputFile_Write (loader.ID root) "zz_generated.shallowcopy.go" outBytes).2
           with
           | Some err, _ => loader.flatten err
           | None, Some err => loader.flatten err
           | None, None =>
             if Nat.ltb
                  (outputFile_Write (loader.ID root) "zz_generated.shallowcopy.go" outBytes).1
                  (String.length outBytes)
             then [loader.ErrShortWrite] else []
           end;
       Files := Files s ++
         match ctx_Open (loader.ID root) "zz_generated.shallowcopy.go" with
         | Some _ => []
         | None =>
           [(loader.ID root, "zz_generated.shallowcopy.go",
             String.substring 0
               (outputFile_Write (loader.ID root) "zz_generated.shallowcopy.go" outBytes).1
               outBytes)]
         end;
       Calls := Calls s |}.
Proof.
  unfold writeOut, accept.
  destruct (ctx_Open _ _); [run; rewrite app_nil_r; reflexivity|].
  destruct (outputFile_Write _ _ _) as [n [err|]]; run; [reflexivity|].
  destruct (Nat.ltb n (String.length outBytes)); run; rewrite ?app_nil_r; reflexivity.
Qed.

(** X13.  [writeOut] always returns.  The errors it adds are those of one
    error at most: the error of [Open]; or else the error of [Write]; or
    else [io.ErrShortWrite] when fewer bytes were accepted than given; or
    else none.  A file reaches the sink exactly when it could be opened,
    even if the write then fails or is short, and holds the bytes
    accepted. *)
Theorem writeOut_errors (root : loader.Package) (outBytes : string) (s : State) :
  let opened := ctx_Open (loader.ID root) "zz_generated.shallowcopy.go" in
  let written := outputFile_Write (loader.ID root) "zz_generated.shallowcopy.go" outBytes in
  exists s',
    writeOut root outBytes s = Returns tt s' /\
    Calls s' = Calls s /\
    Errors s' = Errors s ++
      map (fun e => (loader.ID root, e))
        match opened, written.2 with
        | Some err, _ => loader.flatten err
        | None, Some err => loader.flatten err
        | None, None =>
          if Nat.ltb written.1 (String.length outBytes) then [loader.ErrShortWrite] else []
        end /\
    Files s' = Files s ++
      match opened with
      | Some _ => []
      | None => [(loader.ID root, "zz_generated.shallowcopy.go",
                  String.substring 0 written.1 outBytes)]
      end /\
    (Files s' = Files s <-> opened <> None).
Proof.
  intros opened written. subst opened written. rewrite writeOut_spec.
  eexists. split; [reflexivity|]. simpl. split; [reflexivity|].
  split; [reflexivity|]. split; [reflexivity|].
  destruct (ctx_Open _ _) as [err|].
  - rewrite app_nil_r. split; [discriminate|reflexivity].
  - split.
    + intros Hfiles. exfalso. exact (app_singleton_neq _ _ Hfiles).
    + intros Hopen. contradiction.
Qed.

Lemma writeOut_grows (root : loader.Package) (outBytes : string) (s : State) :
  exists s', writeOut root outBytes s = Returns tt s' /\
             grows (fun e => e.1 = loader.ID root) [loader.ID root] s s'.
Proof.
  rewrite writeOut_spec. eexists. split; [reflexivity|].
  eexists _, _, []. simpl.
  split; [reflexivity|]. split; [reflexivity|]. split; [symmetry; apply app_nil_r|].
  split; [apply owned_map|].
  destruct (ctx_Open _ _); simpl.
  - split; [constructor|apply sublist_nil_l].
  - split; [repeat constructor|reflexivity].
Qed.

(** X14.  The printer is handed one function for each specification, in
    the order of the specifications: a method ShallowCopy with receiver [o]
    of the struct's type, no parameter and one result of that type, whose
    body returns a literal of that type. *)
Theorem one_method_per_specification (visit : nat -> jen.Dict -> jen.Dict)
    (name : string) (structs : list copyStructs) :
  (forall i d, visit i d ≡ₚ d) ->
  Render visit (buildFile name structs) =
  jen_print {| jen.PackageName := name; jen.Decls := map printedFunc structs |}.
Proof. apply Render_spec. Qed.

(** X15.  When every step succeeds (the printer, the formatter, opening and
    a complete write), emission writes exactly one file for the package,
    named zz_generated.shallowcopy.go and holding the formatter's output,
    adds no error and lets [Generate] go on. *)
Theorem file_written (visit : nat -> jen.Dict -> jen.Dict) (root : loader.Package)
    (structs : list copyStructs) (s : State) (text out : string) :
  structs <> [] ->
  (forall i d, visit i d ≡ₚ d) ->
  jen_print {| jen.PackageName := loader.Name root;
               jen.Decls := map printedFunc structs |} = inr text ->
  format_Source text = inr out ->
  ctx_Open (loader.ID root) "zz_generated.shallowcopy.go" = None ->
  outputFile_Write (loader.ID root) "zz_generated.shallowcopy.go" out
    = (String.length out, None) ->
  emitFile visit root structs s =
  Returns true
    {| Errors := Errors s;
       Files := Files s ++ [(loader.ID root, "zz_generated.shallowcopy.go", out)];
       Calls := Calls s |}.
Proof.
  intros Hsome Hvisit Hprint Hformat Hopen Hwrite. unfold emitFile.
  destruct structs as [|c structs]; [contradiction|].
  change (Nat.ltb 0 (List.length (c :: structs))) with true. cbv iota.
  rewrite (Render_spec visit) by assumption. rewrite Hprint, Hformat.
  unfold mbind, M_bind. rewrite writeOut_spec.
  rewrite Hopen, Hwrite. simpl.
  rewrite Nat.ltb_irrefl, substring_all. simpl. rewrite app_nil_r. reflexivity.
Qed.

(** When emission returns false. *)
Lemma emitFile_stops (visit : nat -> jen.Dict -> jen.Dict)
    (root : loader.Package) (structs : list copyStructs) (s : State) :
  exists b s',
    emitFile visit root structs s = Returns b s' /\
    (b = false <->
     structs <> [] /\
     ((exists err, Render visit (buildFile (loader.Name root) structs) = inl err) \/
      (exists text err,
         Render visit (buildFile (loader.Name root) structs) = inr text /\
         format_Source text = inl err))).
Proof.
  unfold emitFile. destruct structs as [|c structs].
  { eexists _, _. split; [reflexivity|]. split; [discriminate|].
    intros [Hsome _]. contradiction. }
  change (Nat.ltb 0 (List.length (c :: structs))) with true. cbv iota.
  destruct (Render visit _) as [err|text].
  { eexists _, _. split; [reflexivity|]. split; [|reflexivity].
    intros _. split; [discriminate|]. left. exists err. reflexivity. }
  destruct (format_Source text) as [err|out] eqn:Hformat.
  { eexists _, _. split; [reflexivity|]. split; [|reflexivity].
    intros _. split; [discriminate|]. right. exists text, err. auto. }
  unfold mbind, M_bind.
  destruct (writeOut_grows root out s) as (s' & -> & _).
  eexists _, _. split; [reflexivity|]. split; [discriminate|].
  intros [_ [[err Herr]|(text' & err & [= <-] & Herr)]]; congruence.
Qed.

(** X16.  Emission makes [Generate] return only when rendering or
    formatting fails.  A sink that cannot open the file, reports a write
    error or writes short never stops the run. *)
Theorem only_render_or_format_stop (visit : nat -> jen.Dict -> jen.Dict)
    (root : loader.Package) (structs : list copyStructs) (s : State) :
  exists b s',
    emitFile visit root structs s = Returns b s' /\
    (b = false <->
     structs <> [] /\
     ((exists err, Render visit (buildFile (loader.Name root) structs) = inl err) \/
      (exists text err,
         Render visit (buildFile (loader.Name root) structs) = inr text /\
         format_Source text = inl err))).
Proof. apply emitFile_stops. Qed.

Lemma emitFile_grows (visit : nat -> jen.Dict -> jen.Dict) (root : loader.Package)
    (structs : list copyStructs) (s s' : State) (b : bool) :
  emitFile visit root structs s = Returns b s' ->
  grows (fun e => e.1 = loader.ID root) [loader.ID root] s s' /\
  (b = false -> Files s' = Files s).
Proof.
  unfold emitFile.
  destruct (Nat.ltb 0 (List.length structs));
    [|intros [= <- <-]; split; [apply grows_refl|discriminate]].
  destruct (Render visit _) as [err|text].
  { intros [= <- <-]. split; [|reflexivity].
    apply (grows_weaken (fun e => e.1 = loader.ID root) _ []);
      [auto|apply sublist_nil_l|]. grown. }
  destruct (format_Source text) as [err|out].
  { intros [= <- <-]. split; [|reflexivity].
    apply (grows_weaken (fun e => e.1 = loader.ID root) _ []);
      [auto|apply sublist_nil_l|]. grown. }
  unfold mbind, M_bind.
  destruct (writeOut_grows root out s) as (s1 & -> & Hgrows).
  intros [= <- <-]. split; [exact Hgrows|discriminate].
Qed.

Lemma generateRoot_grows (fuel : nat) (visit : nat -> jen.Dict -> jen.Dict)
    (root : loader.Package) (s s' : State) (b : bool) :
  generateRoot fuel visit root s = Returns b s' ->
  grows (fun e => e.1 = loader.ID root \/ e ∈ loader.Checked root) [loader.ID root] s s' /\
  (b = false -> Files s' = Files s).
Proof.
  unfold generateRoot, typeCheck. unfold mbind at 1. unfold M_bind.
  set (s0 := {| Errors := Errors s ++ loader.Checked root;
                Files := Files s; Calls := Calls s |}).
  assert (grows (fun e => e.1 = loader.ID root \/ e ∈ loader.Checked root) [] s s0)
    as Hchecked.
  { exists (loader.Checked root), [], []. simpl. rewrite !app_nil_r.
    repeat split; try constructor.
    apply Forall_forall. intros e He. right. exact He. }
  assert (forall s1 ids, grows (fun e => e.1 = loader.ID root) ids s0 s1 ->
            grows (fun e => e.1 = loader.ID root \/ e ∈ loader.Checked root) ids s s1)
    as Hthen.
  { intros s1 ids Hgrows. apply (grows_trans _ [] ids _ s0); [exact Hchecked|].
    apply (grows_weaken (fun e => e.1 = loader.ID root) _ ids); auto. }
  destruct (loader.EachType root) as [err|infos].
  { intros [= <- <-]. split; [|reflexivity].
    apply (grows_weaken (fun e => e.1 = loader.ID root \/ e ∈ loader.Checked root)
             _ [] [loader.ID root]); [auto|apply sublist_nil_l|].
    apply Hthen. grown. }
  unfold mbind, M_bind.
  destruct (eachTypes fuel root [] infos s0) as [structs s1|msg|] eqn:Hcollect;
    try discriminate.
  intros Hemit. apply eachTypes_grows in Hcollect.
  destruct (emitFile_grows _ _ _ _ _ _ Hemit) as [Hgrows Hfiles].
  split; [apply Hthen; exact (grows_trans _ [] _ _ _ _ Hcollect Hgrows)|].
  intros Hb. rewrite (Hfiles Hb).
  destruct Hcollect as (es & fs & cs & _ & Hf & _ & _ & _ & Hsub).
  apply sublist_nil_r in Hsub. apply map_eq_nil in Hsub. subst fs.
  rewrite Hf. apply app_nil_r.
Qed.

(** X17.  [Generate] never returns an error.  It only appends: the errors
    recorded, the files written and the calls made before are kept.  Every
    new error belongs to one of the packages given or is one that
    type-checking one of them reports.  Every new file is named
    zz_generated.shallowcopy.go, and the files belong, in order, to some
    of the packages given, at most one file for each. *)
Theorem Generate_appends (fuel : nat) (visit : string -> nat -> jen.Dict -> jen.Dict)
    (roots : list loader.Package) :
  forall (s s' : State) (r : option loader.error),
  Generate fuel visit roots s = Returns r s' ->
  r = None /\
  grows (fun e => exists root, root ∈ roots /\
                    (e.1 = loader.ID root \/ e ∈ loader.Checked root))
        (map loader.ID roots) s s'.
Proof.
  induction roots as [|root roots IH]; intros s s' r; simpl.
  - intros [= <- <-]. split; [reflexivity|apply grows_refl].
  - unfold mbind, M_bind.
    destruct (generateRoot fuel (visit (loader.ID root)) root s) as [[|] s1|msg|] eqn:Hroot;
      try discriminate.
    + intros Hrest. destruct (IH _ _ _ Hrest) as [-> Hgrows].
      split; [reflexivity|].
      apply generateRoot_grows in Hroot as [Hone _].
      apply (grows_trans _ [loader.ID root] (map loader.ID roots) _ s1).
      * eapply grows_weaken; [|reflexivity|exact Hone].
        intros e He. exists root. split; [left|exact He].
      * eapply grows_weaken; [|reflexivity|exact Hgrows].
        intros e (root' & Hin & He). exists root'. split; [right; exact Hin|exact He].
    + intros [= <- <-]. split; [reflexivity|].
      apply generateRoot_grows in Hroot as [Hone _].
      eapply grows_weaken; [| |exact Hone].
      * intros e He. exists root. split; [left|exact He].
      * apply sublist_skip. apply sublist_nil_l.
Qed.

(** X18.  When the step for a package makes [Generate] return, the packages
    after it are not looked at, whatever they are, and no file has been
    written for the package.  The cause is the collector's error, or a
    failure of the printer or of the formatter on a file with at least one
    method. *)
Theorem failure_ends_run (fuel : nat) (visit : string -> nat -> jen.Dict -> jen.Dict)
    (root : loader.Package) (rest : list loader.Package) (s s1 : State) :
  generateRoot fuel (visit (loader.ID root)) root s = Returns false s1 ->
  Generate fuel visit (root :: rest) s = Returns None s1 /\
  Files s1 = Files s /\
  ((exists err, loader.EachType root = inl err) \/
   (exists infos structs s0,
      loader.EachType root = inr infos /\
      eachTypes fuel root [] infos
        {| Errors := Errors s ++ loader.Checked root;
           Files := Files s; Calls := Calls s |} = Returns structs s0 /\
      structs <> [] /\
      ((exists err, Render (visit (loader.ID root))
                      (buildFile (loader.Name root) structs) = inl err) \/
       (exists text err,
          Render (visit (loader.ID root)) (buildFile (loader.Name root) structs)
            = inr text /\
          format_Source text = inl err)))).
Proof.
  intros Hroot. split; [simpl; unfold mbind, M_bind; rewrite Hroot; reflexivity|].
  split; [exact (proj2 (generateRoot_grows _ _ _ _ _ _ Hroot) eq_refl)|].
  unfold generateRoot, typeCheck in Hroot. unfold mbind at 1 in Hroot.
  unfold M_bind in Hroot.
  destruct (loader.EachType root) as [err|infos]; [left; exists err; reflexivity|].
  right. unfold mbind, M_bind in Hroot.
  destruct (eachTypes fuel root [] infos _) as [structs s0|msg|] eqn:Hcollect;
    try discriminate.
  exists infos, structs, s0. split; [reflexivity|]. split; [exact Hcollect|].
  destruct (emitFile_stops (visit (loader.ID root)) root structs s0)
    as (b & s' & Hemit & Hwhy).
  rewrite Hroot in Hemit. injection Hemit as <- <-.
  exact (proj1 Hwhy eq_refl).
Qed.

End OutputProperties.

(** X12.  The literal printed for a specification has one entry for each
    field of the specification, each assigning the field from the same
    field of the receiver: no field is left out, none is added, however the
    map is ranged over. *)
Theorem literal_copies_every_field (s : copyStructs) (visit : jen.Dict) :
  visit ≡ₚ jen.ReturnValues (shallowCopyFunc s) ->
  jen.Dict_render visit ≡ₚ map entry (Fields s) /\
  List.length (jen.Dict_render visit) = List.length (Fields s).
Proof.
  intros Hvisit. simpl in Hvisit. unfold jen.DictFunc in Hvisit.
  rewrite fillDict_spec in Hvisit. simpl in Hvisit.
  rewrite (Dict_render_sorted visit (Fields s) Hvisit).
  split.
  - apply Permutation_map. apply merge_sort_Permutation.
  - rewrite length_map. apply Permutation_length. apply merge_sort_Permutation.
Qed.

(** * The further properties on the sample packages *)

Lemma struct_collected_witness :
  @eachType Example.goTypes 1 (Example.pkg []) [] Example.handle emptyState =
  Returns ([] ++ [{| StructName := "Handle";
                     Fields := map types.VarName [types.Build_Var "conn"] |}])
          (logged emptyState [CallMarkersGet "Handle" "shallowcopy:generate";
                              CallIsExported "Handle"; CallTypeOf "Handle";
                              CallTypeOf "Handle"]).
Proof.
  apply (@struct_collected Example.goTypes 1 (Example.pkg []) [] Example.handle
           Example.Handle [types.Build_Var "conn"] emptyState);
    try reflexivity; try (intros msg; discriminate); lia.
Defined.

Lemma non_struct_reported_witness :
  @eachType Example.goTypes 0 (Example.pkg []) [] Example.celsius emptyState =
    Returns []
      {| Errors := [] ++ [("example.com/demo/example",
                           loader.ErrFromNode (loader.Errorf "Celsius is not a struct type") 30)];
         Files := [];
         Calls := [] ++ [CallMarkersGet "Celsius" "shallowcopy:generate";
                         CallIsExported "Celsius"; CallTypeOf "Celsius";
                         CallTypeOf "Celsius"] |} /\
  @eachType Aliases.goTypes 1 (Aliases.pkg []) [] Aliases.names emptyState =
    Returns []
      {| Errors := [] ++ [("example.com/demo/aliases",
                           loader.ErrFromNode (loader.Errorf "Names is not a struct type") 10)];
         Files := [];
         Calls := [] ++ [CallMarkersGet "Names" "shallowcopy:generate";
                         CallIsExported "Names"; CallTypeOf "Names";
                         CallTypeOf "Names"] |}.
Proof.
  split.
  - apply (@non_struct_reported Example.goTypes 0 (Example.pkg []) [] Example.celsius
             Example.Celsius emptyState);
      try reflexivity; try discriminate.
    left. exists Example.CopySig, 0, None, (types.Build_Var ""). repeat split.
  - apply (@non_struct_reported Aliases.goTypes 1 (Aliases.pkg []) [] Aliases.names
             Aliases.Names emptyState);
      try reflexivity; try discriminate.
    right. repeat split; try discriminate; lia.
Defined.

Lemma unresolved_type_reported_once_witness :
  @eachType Aliases.goTypes 1 (Aliases.pkg []) [] Aliases.broken emptyState =
  Returns []
    {| Errors := [] ++ [("example.com/demo/aliases",
                         loader.ErrFromNode (loader.Errorf "unknown type Broken") 30)];
       Files := [];
       Calls := [] ++ [CallMarkersGet "Broken" "shallowcopy:generate";
                       CallIsExported "Broken"; CallTypeOf "Broken"] |}.
Proof.
  apply (@unresolved_type_reported_once Aliases.goTypes 1 (Aliases.pkg []) []
           Aliases.broken emptyState); reflexivity.
Defined.

Lemma specs_follow_declarations_witness :
  exists new,
    [{| StructName := "User"; Fields := ["ID"; "Name"] |};
     {| StructName := "Account"; Fields := ["Name"; "ID"] |}] = [] ++ new /\
    sublist (map StructName new) ["Plain"; "User"; "Count"; "Account"].
Proof.
  apply (@specs_follow_declarations Example.goTypes 1 (Example.pkg [])
           [Example.plain; Example.user; Example.count; Example.account] []
           [{| StructName := "User"; Fields := ["ID"; "Name"] |};
            {| StructName := "Account"; Fields := ["Name"; "ID"] |}]
           emptyState
           (logged emptyState
              [CallMarkersGet "Plain" "shallowcopy:generate";
               CallMarkersGet "User" "shallowcopy:generate";
               CallIsExported "User"; CallTypeOf "User"; CallTypeOf "User";
               CallMarkersGet "Count" "shallowcopy:generate";
               CallIsExported "Count"; CallTypeOf "Count";
               CallMarkersGet "Account" "shallowcopy:generate";
               CallIsExported "Account"; CallTypeOf "Account"; CallTypeOf "Account"])).
  reflexivity.
Defined.

Lemma literal_copies_every_field_witness :
  jen.Dict_render [entry "ID"; entry "Name"] ≡ₚ map entry ["Name"; "ID"] /\
  List.length (jen.Dict_render [entry "ID"; entry "Name"]) = 2.
Proof.
  apply (literal_copies_every_field {| StructName := "Account"; Fields := ["Name"; "ID"] |}
           [entry "ID"; entry "Name"]).
  simpl. apply perm_swap.
Defined.

Lemma one_method_per_specification_witness :
  @Render Example.toolchain Example.reversed
     (buildFile "example" [{| StructName := "Account"; Fields := ["Name"; "ID"] |}]) =
  Example.print
    {| jen.PackageName := "example";
       jen.Decls := map printedFunc [{| StructName := "Account"; Fields := ["Name"; "ID"] |}] |}.
Proof.
  apply (@one_method_per_specification Example.toolchain Example.reversed "example"
           [{| StructName := "Account"; Fields := ["Name"; "ID"] |}]).
  intros i d. symmetry. apply Permutation_rev.
Defined.

Lemma file_written_witness :
  let out := "package example func (o User) ShallowCopy() User { return User{ID: o.ID, Name: o.Name} }" in
  @emitFile Example.goTypes Example.toolchain Example.reversed (Example.pkg [])
     [{| StructName := "User"; Fields := ["ID"; "Name"] |}] emptyState =
  Returns true
    {| Errors := [];
       Files := [] ++ [("example.com/demo/example", "zz_generated.shallowcopy.go", out)];
       Calls := [] |}.
Proof.
  apply (@file_written Example.goTypes Example.toolchain Example.reversed (Example.pkg [])
           [{| StructName := "User"; Fields := ["ID"; "Name"] |}] emptyState
           "package example func (o User) ShallowCopy() User { return User{ID: o.ID, Name: o.Name} }"
           "package example func (o User) ShallowCopy() User { return User{ID: o.ID, Name: o.Name} }");
    try reflexivity; try discriminate.
  intros i d. symmetry. apply Permutation_rev.
Defined.

Lemma Generate_appends_witness :
  let roots := [Example.pkg [Example.user]; Example.pkg [Example.plain]] in
  let s' := {| Errors := [];
               Files := [("example.com/demo/example", "zz_generated.shallowcopy.go",
                          "package example func (o User) ShallowCopy() User { return User{ID: o.ID, Name: o.Name} }")];
               Calls := [CallMarkersGet "User" "shallowcopy:generate";
                         CallIsExported "User"; CallTypeOf "User"; CallTypeOf "User";
                         CallMarkersGet "Plain" "shallowcopy:generate"] |} in
  @None loader.error = None /\
  grows (fun e => exists root, root ∈ roots /\
                    (e.1 = @loader.ID Example.goTypes root \/
                     e ∈ @loader.Checked Example.goTypes root))
        (map (@loader.ID Example.goTypes) roots) emptyState s'.
Proof.
  apply (@Generate_appends Example.goTypes Example.toolchain 1 (fun _ => Example.reversed)
           [Example.pkg [Example.user]; Example.pkg [Example.plain]] emptyState).
  reflexivity.
Defined.

Lemma failure_ends_run_witness :
  let root := Example.pkg [Example.user] in
  let rest := [Example.pkg [Example.account]] in
  let source := "package example func (o User) ShallowCopy() User { return User{ID: o.ID, Name: o.Name} " in
  let s1 := {| Errors := [("example.com/demo/example",
                           loader.Errorf ("Error " ++ loader.Error Example.unbalanced
                                          ++ " while formatting source:" ++ newline
                                          ++ source))];
               Files := [];
               Calls := [CallMarkersGet "User" "shallowcopy:generate";
                         CallIsExported "User"; CallTypeOf "User"; CallTypeOf "User"] |} in
  @Generate Example.goTypes Example.faulty 1 (fun _ => Example.inOrder) (root :: rest)
     emptyState = Returns None s1 /\
  Files s1 = [] /\
  ((exists err, @loader.EachType Example.goTypes root = inl err) \/
   (exists infos structs s0,
      @loader.EachType Example.goTypes root = inr infos /\
      @eachTypes Example.goTypes 1 root [] infos
        {| Errors := [] ++ @loader.Checked Example.goTypes root;
           Files := []; Calls := [] |} = Returns structs s0 /\
      structs <> [] /\
      ((exists err, @Render Example.faulty Example.inOrder
                      (buildFile "example" structs) = inl err) \/
       (exists text err,
          @Render Example.faulty Example.inOrder (buildFile "example" structs)
            = inr text /\
          @format_Source Example.faulty text = inl err)))).
Proof.
  apply (@failure_ends_run Example.goTypes Example.faulty 1 (fun _ => Example.inOrder)
           (Example.pkg [Example.user]) [Example.pkg [Example.account]] emptyState).
  reflexivity.
Defined.

